(** * RestiPy request pipeline: a shallow embedding of
    [restipy/core/application.py] and [restipy/core/request.py].

    Python values the pipeline reads and writes are modelled by [pyval];
    raising is the [Raise] branch of [outcome]; the mutable request object
    seen by hooks is an abstract world [W] threaded through every call;
    each hook call is recorded in an event log so that "this hook ran" and
    "this hook never ran" become statements about the log. *)

From Stdlib Require Import String Ascii ZArith List Lia Bool.
From stdpp Require Import base gmap strings list.
Import ListNotations.

Set Warnings "-register-all".
Open Scope string_scope.
Open Scope Z_scope.

(* ------------------------------------------------------------------ *)
(** ** Python values, exceptions, outcomes *)

(** The Python values a hook, a parser or a response body may hold:
    [None], booleans, ints, str, lists and dicts (as insertion-ordered
    association lists, like Python's dict). *)
Inductive pyval : Type :=
| PNone
| PBool (b : bool)
| PInt (z : Z)
| PStr (s : string)
| PList (l : list pyval)
| PDict (kv : list (string * pyval)).

(** Python truthiness ([if self._form:]). *)
Definition truthy (v : pyval) : bool :=
  match v with
  | PNone => false
  | PBool b => b
  | PInt z => negb (Z.eqb z 0)
  | PStr s => negb (String.eqb s "")
  | PList l => negb (Nat.eqb (length l) 0)
  | PDict kv => negb (Nat.eqb (length kv) 0)
  end.

(** [d[k] = v] on a Python dict: an existing key keeps its position and
    takes the new value, a new key is appended. *)
Fixpoint dict_set (kv : list (string * pyval)) (k : string) (v : pyval)
  : list (string * pyval) :=
  match kv with
  | [] => [(k, v)]
  | (k', v') :: rest =>
      if String.eqb k k' then (k, v) :: rest else (k', v') :: dict_set rest k v
  end.

(** [dict(pairs)]. *)
Definition dict_of_pairs (ps : list (string * string)) : list (string * pyval) :=
  fold_left (fun d '(k, v) => dict_set d k (PStr v)) ps [].

(** [restipy.core.exceptions.HTTPException]: status code, stable code,
    message and headers. *)
Record HTTPException : Type := mkHTTPException {
  he_message : string;
  he_status_code : Z;
  he_code : string;
  he_headers : list (string * string)
}.

(** Exceptions that can travel through the pipeline: transport errors
    ([HTTPException]), application errors ([RestiPyException], with the
    [from e] cause), and any other Python exception (type name, message). *)
Inductive exn : Type :=
| EHTTP (h : HTTPException)
| ERestiPy (msg : string) (cause : option exn)
| EOther (tyname msg : string).

(** Modelled from the spec: [restipy/core/exceptions.py] is not in the
    sources. The spec's taxonomy separates transport errors from the
    application errors a view's [on_exception] recovers, so
    [except RestiPyException] catches [ERestiPy] only. *)
Definition is_restipy_exception (e : exn) : bool :=
  match e with ERestiPy _ _ => true | _ => false end.

Definition is_http_exception (e : exn) : bool :=
  match e with EHTTP _ => true | _ => false end.

(** [str(e)]. *)
Definition exn_str (e : exn) : string :=
  match e with
  | EHTTP h => he_message h
  | ERestiPy m _ => m
  | EOther _ m => m
  end.

Definition exn_type (e : exn) : string :=
  match e with
  | EHTTP _ => "HTTPException"
  | ERestiPy _ _ => "RestiPyException"
  | EOther t _ => t
  end.

(** A computation either returns a value or raises. *)
Inductive outcome (A : Type) : Type :=
| Ok (a : A)
| Raise (e : exn).
Arguments Ok {A} a.
Arguments Raise {A} e.

(* ------------------------------------------------------------------ *)
(** ** Responses *)

(** [restipy.core.response.Response]: body, status code and headers. *)
Record Response : Type := mkResponse {
  body : pyval;
  status : Z;
  headers : list (string * string)
}.

(** Modelled from the spec: the table of recognized HTTP status codes
    ([restipy.routing.HTTP_STATUS_LINES] is not in the sources). *)
Definition HTTP_STATUS_CODES : list Z :=
  [100; 101; 102; 103; 200; 201; 202; 203; 204; 205; 206; 207; 208; 226;
   300; 301; 302; 303; 304; 305; 307; 308;
   400; 401; 402; 403; 404; 405; 406; 407; 408; 409; 410; 411; 412; 413;
   414; 415; 416; 417; 418; 421; 422; 423; 424; 425; 426; 428; 429; 431; 451;
   500; 501; 502; 503; 504; 505; 506; 507; 508; 510; 511].

(** Modelled from the spec: [Response(body, status_code=..., headers=...)];
    a status outside the recognized table is rejected with an error
    ("Invalid status code.", as the repository's tests check). *)
Definition Response_new (b : pyval) (status_code : Z)
    (hs : list (string * string)) : outcome Response :=
  if existsb (Z.eqb status_code) HTTP_STATUS_CODES
  then Ok (mkResponse b status_code hs)
  else Raise (EOther "Exception" "Invalid status code.").

(** Modelled from the spec: [HTTPException.get_response()], the response
    body of a transport error: its stable code and its message. *)
Definition get_response_body (h : HTTPException) : pyval :=
  PDict [("code", PStr (he_code h)); ("error", PStr (he_message h))].

(** A value returned by a hook: [isinstance(out, Response)] or not. *)
Inductive PyRet : Type :=
| RResp (r : Response)
| RVal (v : pyval).

(* ------------------------------------------------------------------ *)
(** ** Strings *)

Definition ascii_upper (c : ascii) : ascii :=
  let n := nat_of_ascii c in
  if (97 <=? n)%nat && (n <=? 122)%nat then ascii_of_nat (n - 32) else c.

(** [str.upper()] on ASCII text. *)
Fixpoint str_upper (s : string) : string :=
  match s with
  | EmptyString => EmptyString
  | String c rest => String (ascii_upper c) (str_upper rest)
  end.

Definition ascii_lower (c : ascii) : ascii :=
  let n := nat_of_ascii c in
  if (65 <=? n)%nat && (n <=? 90)%nat then ascii_of_nat (n + 32) else c.

(** [str.lower()] on ASCII text. *)
Fixpoint str_lower (s : string) : string :=
  match s with
  | EmptyString => EmptyString
  | String c rest => String (ascii_lower c) (str_lower rest)
  end.

(** [s.split(';')[0]]. *)
Fixpoint before_semicolon (s : string) : string :=
  match s with
  | EmptyString => EmptyString
  | String c rest =>
      if Ascii.eqb c ";" then EmptyString else String c (before_semicolon rest)
  end.

Definition nl : ascii := ascii_of_nat 10.
Definition cr : ascii := ascii_of_nat 13.

(** [str.splitlines()] for line breaks [\n], [\r] and [\r\n]; [cur] is the
    line read so far. *)
Fixpoint splitlines_aux (s cur : string) : list string :=
  match s with
  | EmptyString => if String.eqb cur "" then [] else [cur]
  | String c rest =>
      if Ascii.eqb c nl then cur :: splitlines_aux rest ""
      else if Ascii.eqb c cr then
        match rest with
        | String c' rest' =>
            if Ascii.eqb c' nl then cur :: splitlines_aux rest' ""
            else cur :: splitlines_aux rest ""
        | EmptyString => [cur]
        end
      else splitlines_aux rest (String.append cur (String c EmptyString))
  end.

Definition splitlines (s : string) : list string := splitlines_aux s "".

(* ------------------------------------------------------------------ *)
(** ** Application: views, route table, middleware, dispatcher *)

Module App.

(** A view's [route]: still the string the view class declares, or a
    compiled [re.Pattern] (kept as its source text). *)
Inductive Route : Type :=
| RStr (s : string)
| RPattern (src : string).

(** [re.compile(p)]: a string is compiled; a pattern object is returned
    unchanged, as Python's [re.compile] does for an already compiled
    pattern with no flags. *)
Definition re_compile (r : Route) : Route :=
  match r with
  | RStr s => RPattern s
  | RPattern p => RPattern p
  end.

(** Captured named groups, [match.groupdict()]. *)
Abbreviation params := (list (string * string)).

(** Events recorded by the dispatcher: which hook it called (with the
    position of a middleware in its phase list), and the diagnostic write to
    [wsgi.errors]. *)
Inductive event : Type :=
| EvBeforeRoute (i : nat)
| EvBeforeHandlerMw (i : nat)
| EvViewBefore
| EvViewHandler
| EvViewAfter
| EvViewOnException
| EvAfterMw (i : nat)
| EvErrorsWrite (s : string)
| EvStartResponse (status_line : string) (hs : list (string * string)).

Section Pipeline.

(** The request object and everything else a hook can read or mutate. *)
Variable W : Type.
(** [req.path] and [req.method] read from the current environment. *)
Variable req_path : W -> string.
Variable req_method : W -> string.
(** [req.set_params = params]. *)
Variable set_params : params -> W -> W.
(** [pattern.match(path)]: [re.match] of a compiled pattern, giving the
    named groups on success. *)
Variable rx_match : string -> string -> option params.
(** The frame lines [traceback.format_exc()] prints between its header and
    the exception line. *)
Variable tb_frames : string.
(** Modelled from the spec: [Response.get_response()] (the module
    [restipy/core/response.py] is not in the sources) serializes the body to
    bytes at emission time and gives the status line drawn from the status
    table. *)
Variable serialize : pyval -> list Byte.byte.
Variable status_line : Z -> string.

(** A view: route, declared methods and the four lifecycle hooks. A hook
    maps the world to a new world and a returned value or exception. *)
Record View : Type := mkView {
  route : Route;
  methods : list string;
  before_handler : W -> W * outcome PyRet;
  handler : W -> W * outcome PyRet;
  after_handler : W -> Response -> W * outcome pyval;
  on_exception : W -> exn -> W * outcome PyRet
}.

Definition set_route (v : View) (r : Route) : View :=
  mkView r (methods v) (before_handler v) (handler v) (after_handler v)
    (on_exception v).

(** The application's registries: [_routes], the three middleware phase
    lists, and [config.DEBUG]. *)
Record RestiPy : Type := mkRestiPy {
  _routes : gmap string (list View);
  _before_route_m : list (W -> W * outcome PyRet);
  _before_m : list (W -> W * outcome PyRet);
  _after_m : list (W -> Response -> W * outcome pyval);
  DEBUG : bool
}.

(** [RestiPy._add_view], lines 105-112. *)
Definition _add_view (app : RestiPy) (view : View) : RestiPy * View :=
  let view :=
    match route view with
    | RStr _ => view
    | _ => set_route view (re_compile (route view))
    end in
  let routes :=
    fold_left
      (fun rs m =>
         let m := str_upper m in
         let l := default [] (rs !! m) in
         <[m := (l ++ [view])%list]> rs)
      (methods view) (_routes app) in
  (mkRestiPy routes (_before_route_m app) (_before_m app) (_after_m app)
     (DEBUG app), view).

(** [RestiPy.add_middleware]: the three hooks appended together. *)
Definition add_middleware (app : RestiPy)
    (br : W -> W * outcome PyRet) (bh : W -> W * outcome PyRet)
    (ah : W -> Response -> W * outcome pyval) : RestiPy :=
  mkRestiPy (_routes app) (_before_route_m app ++ [br])%list (_before_m app ++ [bh])%list
    (_after_m app ++ [ah])%list (DEBUG app).

(** [view.route.match(path)]: a route left as a string has no [match]
    attribute. *)
Definition route_match (r : Route) (path : string) : outcome (option params) :=
  match r with
  | RPattern p => Ok (rx_match p path)
  | RStr _ => Raise (EOther "AttributeError" "'str' object has no attribute 'match'")
  end.

(** The inner loop of [RestiPy.match]: first matching view of one list. *)
Fixpoint match_list (vs : list View) (path : string)
  : outcome (option (View * params)) :=
  match vs with
  | [] => Ok None
  | v :: rest =>
      match route_match (route v) path with
      | Raise e => Raise e
      | Ok (Some g) => Ok (Some (v, g))
      | Ok None => match_list rest path
      end
  end.

Definition ROUTE_NOT_FOUND : HTTPException :=
  mkHTTPException "Route not found." 404 "ROUTE_NOT_FOUND" [].

(** The outer loop of [RestiPy.match] over the candidate methods. *)
Fixpoint match_methods (routes : gmap string (list View)) (ms : list string)
    (path : string) : outcome (View * params) :=
  match ms with
  | [] => Raise (EHTTP ROUTE_NOT_FOUND)
  | m :: rest =>
      match match_list (default [] (routes !! m)) path with
      | Raise e => Raise e
      | Ok (Some r) => Ok r
      | Ok None => match_methods routes rest path
      end
  end.

(** [RestiPy.match], lines 207-217. *)
Definition match_ (app : RestiPy) (path method : string) : outcome (View * params) :=
  let ms := if String.eqb method "HEAD" then [method; "GET"] else [method] in
  match_methods (_routes app) ms path.

(** One middleware loop of [process_request] (lines 291-294 and 326-329):
    the hooks of a phase run in registration order and the first one that
    returns a [Response] ends the loop with it. *)
Fixpoint run_phase (ev : nat -> event) (ms : list (W -> W * outcome PyRet))
    (i : nat) (log : list event) (w : W)
  : list event * W * outcome (option Response) :=
  match ms with
  | [] => (log, w, Ok None)
  | m :: rest =>
      let log := (log ++ [ev i])%list in
      let '(w, o) := m w in
      match o with
      | Raise e => (log, w, Raise e)
      | Ok (RResp r) => (log, w, Ok (Some r))
      | Ok (RVal _) => run_phase ev rest (S i) log w
      end
  end.

(** How the view block (lines 344-360) is left without raising: by one of
    its [return out] statements, or by falling through to the
    after-handler middleware. *)
Inductive view_exit : Type :=
| ReturnNow (r : Response)
| FallThrough (r : Response).

(** [except RestiPyException as e:] of the view block (lines 354-360). *)
Definition view_except (view : View) (e : exn) (log : list event) (w : W)
  : list event * W * outcome view_exit :=
  if is_restipy_exception e then
    let log := (log ++ [EvViewOnException])%list in
    let '(w, o) := on_exception view w e in
    match o with
    | Raise e' => (log, w, Raise e')
    | Ok (RResp r) => (log, w, Ok (ReturnNow r))
    | Ok (RVal _) =>
        (log, w, Raise (ERestiPy "Route exception must return Response object." (Some e)))
    end
  else (log, w, Raise e).

(** The [try] of the view block (lines 344-353). *)
Definition run_view (view : View) (log : list event) (w : W)
  : list event * W * outcome view_exit :=
  let log := (log ++ [EvViewBefore])%list in
  let '(w, o) := before_handler view w in
  match o with
  | Raise e => view_except view e log w
  | Ok (RResp r) => (log, w, Ok (ReturnNow r))
  | Ok (RVal _) =>
      let log := (log ++ [EvViewHandler])%list in
      let '(w, o) := handler view w in
      match o with
      | Raise e => view_except view e log w
      | Ok (RVal _) =>
          view_except view
            (ERestiPy "Route handler must return a Response object." None) log w
      | Ok (RResp r) =>
          let log := (log ++ [EvViewAfter])%list in
          let '(w, o) := after_handler view w r in
          match o with
          | Raise e => view_except view e log w
          | Ok _ => (log, w, Ok (FallThrough r))
          end
      end
  end.

(** The after-handler loop (lines 362-363): return values are discarded. *)
Fixpoint run_after (ms : list (W -> Response -> W * outcome pyval)) (i : nat)
    (r : Response) (log : list event) (w : W) : list event * W * outcome unit :=
  match ms with
  | [] => (log, w, Ok tt)
  | m :: rest =>
      let log := (log ++ [EvAfterMw i])%list in
      let '(w, o) := m w r in
      match o with
      | Raise e => (log, w, Raise e)
      | Ok _ => run_after rest (S i) r log w
      end
  end.

(** The body of the outer [try] of [process_request] (lines 291-365). *)
Definition pipeline (app : RestiPy) (log : list event) (w : W)
  : list event * W * outcome Response :=
  let '(log, w, o) := run_phase EvBeforeRoute (_before_route_m app) 0 log w in
  match o with
  | Raise e => (log, w, Raise e)
  | Ok (Some out) => (log, w, Ok out)
  | Ok None =>
      match match_ app (req_path w) (req_method w) with
      | Raise e => (log, w, Raise e)
      | Ok (view, ps) =>
          let w := set_params ps w in
          let '(log, w, o) := run_phase EvBeforeHandlerMw (_before_m app) 0 log w in
          match o with
          | Raise e => (log, w, Raise e)
          | Ok (Some out) => (log, w, Ok out)
          | Ok None =>
              let '(log, w, o) := run_view view log w in
              match o with
              | Raise e => (log, w, Raise e)
              | Ok (ReturnNow out) => (log, w, Ok out)
              | Ok (FallThrough out) =>
                  let '(log, w, o) := run_after (_after_m app) 0 out log w in
                  match o with
                  | Raise e => (log, w, Raise e)
                  | Ok _ => (log, w, Ok out)
                  end
              end
          end
      end
  end.

(** [traceback.format_exc()] inside the handler of [e]. *)
Definition format_exc (e : exn) : string :=
  String.append "Traceback (most recent call last):"
    (String nl (String.append tb_frames
       (String.append (exn_type e)
          (String.append ": " (String.append (exn_str e) (String nl EmptyString)))))).

Definition INTERNAL_ERROR_BODY : pyval :=
  PDict [("code", PStr "INTERNAL_SERVER_ERROR");
         ("error", PStr "Something went wrong, try again later.")].

Definition DEBUG_ERROR_BODY (e : exn) (stacktrace : string) : pyval :=
  PDict [("code", PStr "INTERNAL_SERVER_ERROR");
         ("error", PStr (exn_str e));
         ("stacktrace", PList (map PStr (splitlines stacktrace)))].

(** The two [except] clauses of [process_request] (lines 366-411). *)
Definition handle_exception (app : RestiPy) (e : exn) (log : list event) (w : W)
  : list event * W * outcome Response :=
  match e with
  | EHTTP h =>
      (log, w, Response_new (get_response_body h) (he_status_code h) (he_headers h))
  | _ =>
      let stacktrace := format_exc e in
      let log := (log ++ [EvErrorsWrite stacktrace])%list in
      if Bool.eqb (DEBUG app) false
      then (log, w, Response_new INTERNAL_ERROR_BODY 500 [])
      else (log, w, Response_new (DEBUG_ERROR_BODY e stacktrace) 500 [])
  end.

(** [RestiPy.process_request]. *)
Definition process_request (app : RestiPy) (w : W)
  : list event * W * outcome Response :=
  let '(log, w, o) := pipeline app [] w in
  match o with
  | Ok out => (log, w, Ok out)
  | Raise e => handle_exception app e log w
  end.

Definition get_response (r : Response)
  : list Byte.byte * string * list (string * string) :=
  (serialize (body r), status_line (status r), headers r).

(** [RestiPy.wsgi] (lines 245-255), a generator: its result is the list of
    chunks it yields. *)
Definition wsgi (app : RestiPy) (w : W)
  : list event * W * outcome (list (list Byte.byte)) :=
  let method := req_method w in
  let '(log, w, o) := process_request app w in
  match o with
  | Raise e => (log, w, Raise e)
  | Ok out =>
      let '(data, sl, hs) := get_response out in
      let log := (log ++ [EvStartResponse sl hs])%list in
      if String.eqb method "HEAD" then (log, w, Ok [])
      else (log, w, Ok [data])
  end.

End Pipeline.
End App.

(* ------------------------------------------------------------------ *)
(** ** Request body reading and parsing *)

Module Req.

(** [lst[:n]] and [lst[n:]] with a [Z] index. *)
Fixpoint take {A} (n : Z) (l : list A) : list A :=
  match l with
  | [] => []
  | x :: rest => if n <=? 0 then [] else x :: take (n - 1) rest
  end.

Fixpoint drop {A} (n : Z) (l : list A) : list A :=
  match l with
  | [] => []
  | x :: rest => if n <=? 0 then l else drop (n - 1) rest
  end.

(** One [multipart] part as [email] parses it: filename (from
    Content-Disposition), field name and [get_payload(decode=True)], which
    is [None] for a nested multipart part. *)
Record Part : Type := mkPart {
  part_filename : option string;
  part_name : string;
  part_payload : option (list Byte.byte)
}.

Section Body.

(** [bytes.decode()] (UTF-8); [None] when it raises. *)
Variable decode : list Byte.byte -> option string.
(** [urllib.parse.parse_qsl]. *)
Variable parse_qsl : string -> list (string * string).
(** [json.loads]; [None] when it raises. *)
Variable json_loads : string -> option pyval.
(** [email.parser.BytesFeedParser] fed the [content-type] header line and
    the body: the parts when the message is multipart, [None] when
    [message.is_multipart()] is false. *)
Variable multipart_parse : string -> list Byte.byte -> option (list Part).

(** The fields of [Request] the body accessors touch: the environment
    entries they read, the configured [MAX_BODY_SIZE] ([None] when the
    setting is missing), what is left of [wsgi.input], and the shared
    cache [_form]. [content_length] is the outcome of the property
    [int(self.env.get('CONTENT_LENGTH', '0'))]: the integer, or the
    [ValueError] that [int] raises on an empty or non-numeric value. *)
Record Request : Type := mkRequest {
  REQUEST_METHOD : string;
  content_type : string;
  content_length : outcome Z;
  max_body_size : option Z;
  input : list Byte.byte;
  _form : pyval
}.

Definition set_input (rq : Request) (i : list Byte.byte) : Request :=
  mkRequest (REQUEST_METHOD rq) (content_type rq) (content_length rq)
    (max_body_size rq) i (_form rq).

Definition set_form (rq : Request) (f : pyval) : Request :=
  mkRequest (REQUEST_METHOD rq) (content_type rq) (content_length rq)
    (max_body_size rq) (input rq) f.

(** [Request.method]. *)
Definition method (rq : Request) : string := str_upper (REQUEST_METHOD rq).

Definition CHUNK_SIZE : Z := 64 * 1024.

(** The [while readbytes < toread] loop of [_read_body] (lines 98-103):
    each [input.read(64 * 1024)] returns the next bytes of the stream, at
    most [CHUNK_SIZE] of them; an empty read ends the loop. The fuel
    [S (length inp)] suffices, as every iteration consumes a byte. *)
Fixpoint read_chunks (fuel : nat) (inp : list Byte.byte) (readbytes toread : Z)
  : list (list Byte.byte) * list Byte.byte :=
  match fuel with
  | O => ([], inp)
  | S fuel =>
      if readbytes <? toread then
        match take CHUNK_SIZE inp with
        | [] => ([], inp)
        | chunk =>
            let '(cs, rest) :=
              read_chunks fuel (drop CHUNK_SIZE inp)
                (readbytes + Z.of_nat (length chunk)) toread in
            (chunk :: cs, rest)
        end
      else ([], inp)
  end.

Definition MISSING_MAX_BODY_SIZE : HTTPException :=
  mkHTTPException "Missing MAX_BODY_SIZE in settings." 500 "MISSING_MAX_BODY_SIZE" [].
Definition REQUEST_BODY_TOO_LARGE : HTTPException :=
  mkHTTPException "Request body too large." 413 "REQUEST_BODY_TOO_LARGE" [].
Definition INVALID_REQUEST_BODY : HTTPException :=
  mkHTTPException "Invalid request body." 400 "INVALID_REQUEST_BODY" [].
Definition MALFORMED_JSON_BODY : HTTPException :=
  mkHTTPException "Malformed JSON body." 400 "INVALID_REQUEST_BODY" [].

(** [Request._read_body] (lines 65-103), a generator: the chunks it
    yields when iterated to the end (as every caller does), or the
    exception the iteration raises. *)
Definition _read_body (rq : Request) : outcome (list (list Byte.byte)) * Request :=
  if negb (existsb (String.eqb (method rq)) ["POST"; "PUT"; "PATCH"])
  then (Ok [], rq)
  else
    match content_length rq with
    | Raise e => (Raise e, rq)
    | Ok content_length =>
        match max_body_size rq with
        | None => (Raise (EHTTP MISSING_MAX_BODY_SIZE), rq)
        | Some max_body_size =>
            if content_length >? max_body_size
            then (Raise (EHTTP REQUEST_BODY_TOO_LARGE), rq)
            else
              let toread := Z.max content_length max_body_size in
              let '(cs, rest) := read_chunks (S (length (input rq))) (input rq) 0 toread in
              (Ok cs, set_input rq rest)
        end
    end.

(** [body = b''; for chunk in self._read_body(): body += chunk]. *)
Definition read_all (rq : Request) : outcome (list Byte.byte) * Request :=
  let '(o, rq) := _read_body rq in
  match o with
  | Raise e => (Raise e, rq)
  | Ok cs => (Ok (concat cs), rq)
  end.

(** [Request._parse_url_encoded_form] (lines 117-135). *)
Definition _parse_url_encoded_form (rq : Request) : outcome (option pyval) * Request :=
  if truthy (_form rq) then (Ok (Some (_form rq)), rq) else
  let '(o, rq) := read_all rq in
  match o with
  | Raise e => (Raise e, rq)
  | Ok body =>
      match decode body with
      | None => (Raise (EHTTP INVALID_REQUEST_BODY), rq)
      | Some s =>
          let rq := set_form rq (PDict (dict_of_pairs (parse_qsl s))) in
          if truthy (_form rq) then (Ok (Some (_form rq)), rq) else (Ok None, rq)
      end
  end.

(** [Request._get_multipart_message] (lines 149-156). *)
Definition _get_multipart_message (rq : Request)
  : outcome (option (list Part)) * Request :=
  let '(o, rq) := read_all rq in
  match o with
  | Raise e => (Raise e, rq)
  | Ok body => (Ok (multipart_parse (content_type rq) body), rq)
  end.

(** The field loop of [_parse_multipart_form] (lines 222-230): it writes
    [self._form[name] = payload] in place, so the fields stored before an
    exception stay in the cache. *)
Fixpoint fill_form (parts : list Part) (form : pyval) : pyval * option exn :=
  match parts with
  | [] => (form, None)
  | p :: rest =>
      if truthy (match part_filename p with Some f => PStr f | None => PNone end)
      then fill_form rest form
      else
        let payload :=
          match part_payload p with
          | None => Ok PNone
          | Some b =>
              match decode b with
              | Some s => Ok (PStr s)
              | None => Raise (EOther "UnicodeDecodeError" "invalid utf-8")
              end
          end in
        match payload with
        | Raise e => (form, Some e)
        | Ok v =>
            match form with
            | PDict kv => fill_form rest (PDict (dict_set kv (part_name p) v))
            | _ => (form, Some (EOther "TypeError" "object does not support item assignment"))
            end
        end
  end.

(** [Request._parse_multipart_form] (lines 214-233). *)
Definition _parse_multipart_form (rq : Request) : outcome (option pyval) * Request :=
  if truthy (_form rq) then (Ok (Some (_form rq)), rq) else
  let '(o, rq) := _get_multipart_message rq in
  match o with
  | Raise e => (Raise e, rq)
  | Ok None => (Ok None, rq)
  | Ok (Some parts) =>
      let '(f, err) := fill_form parts (_form rq) in
      let rq := set_form rq f in
      match err with
      | Some e => (Raise e, rq)
      | None => if truthy (_form rq) then (Ok (Some (_form rq)), rq) else (Ok None, rq)
      end
  end.

(** [Request._parse_json_data] (lines 247-272). *)
Definition _parse_json_data (rq : Request) : outcome (option pyval) * Request :=
  if truthy (_form rq) then (Ok (Some (_form rq)), rq) else
  let ctype := before_semicolon (str_lower (content_type rq)) in
  if negb (existsb (String.eqb ctype) ["application/json"; "application/json-rpc"])
  then (Ok None, rq)
  else
    let '(o, rq) := read_all rq in
    match o with
    | Raise e => (Raise e, rq)
    | Ok [] => (Ok None, rq)
    | Ok body =>
        match match decode body with Some s => json_loads s | None => None end with
        | None => (Raise (EHTTP MALFORMED_JSON_BODY), rq)
        | Some v => let rq := set_form rq v in (Ok (Some (_form rq)), rq)
        end
    end.

(** The [json] property. *)
Definition json (rq : Request) : outcome (option pyval) * Request :=
  _parse_json_data rq.

(** The [form] property. *)
Definition form (rq : Request) : outcome (option pyval) * Request :=
  if String.prefix "multipart/" (content_type rq)
  then _parse_multipart_form rq
  else _parse_url_encoded_form rq.

(** A read of [req.json] or [req.form]. *)
Inductive access : Type := AJson | AForm.

Definition run_access (a : access) (rq : Request) : outcome (option pyval) * Request :=
  match a with AJson => json rq | AForm => form rq end.

(** Successive accesses on one request, with the value of each. *)
Fixpoint run_accesses (l : list access) (rq : Request)
  : list (outcome (option pyval)) * Request :=
  match l with
  | [] => ([], rq)
  | a :: rest =>
      let '(o, rq) := run_access a rq in
      let '(os, rq) := run_accesses rest rq in
      (o :: os, rq)
  end.

End Body.
End Req.

(* ------------------------------------------------------------------ *)
(** ** Uploaded files and the environment accessors of [Request] *)

Module ReqMore.
Import Req.

(** [d[k] = v] on a dict with values of any type: an existing key keeps its
    position, a new key is appended. *)
Fixpoint assoc_set {A} (kv : list (string * A)) (k : string) (v : A)
  : list (string * A) :=
  match kv with
  | [] => [(k, v)]
  | (k', v') :: rest =>
      if String.eqb k k' then (k, v) :: rest else (k', v') :: assoc_set rest k v
  end.

(** [d.get(k)] on such a dict. *)
Fixpoint assoc_get {A} (kv : list (string * A)) (k : string) : option A :=
  match kv with
  | [] => None
  | (k', v) :: rest => if String.eqb k k' then Some v else assoc_get rest k
  end.

(** [restipy.utils.helpers.UploadedFile] is not in the sources; it is
    modelled by the three fields the call of lines 190-194 passes. *)
Record UploadedFile : Type := mkUploadedFile {
  uf_filename : string;
  uf_content_type : string;
  uf_filepath : string
}.

(** [if not part.get_filename(): continue]: [None] and [''] are skipped. *)
Definition has_filename (p : Part) : bool :=
  match part_filename p with
  | Some f => negb (String.eqb f "")
  | None => false
  end.

Section Files.

(** The email parser, as for [_get_multipart_message]. *)
Variable multipart_parse : string -> list Byte.byte -> option (list Part).
(** [part.get_content_type()]. *)
Variable part_content_type : Part -> string.
(** The name [tempfile.NamedTemporaryFile] gives the [n]-th file it
    creates. *)
Variable tmp_name : nat -> string.

(** A request with its cache of uploaded files [_files], together with the
    temporary files written so far (path and content). *)
Record FilesRequest : Type := mkFilesRequest {
  freq : Request;
  _files : list (string * UploadedFile);
  tmpfs : list (string * list Byte.byte)
}.

(** The part loop of [_parse_multipart_files] (lines 180-194): every part
    with a filename is copied to a new temporary file ([delete=False]) and
    recorded as [self._files[name]]; [io.BytesIO(None)] of a part without a
    decoded payload is an empty file. *)
Fixpoint save_files (parts : list Part) (files : list (string * UploadedFile))
    (fs : list (string * list Byte.byte))
  : list (string * UploadedFile) * list (string * list Byte.byte) :=
  match parts with
  | [] => (files, fs)
  | p :: rest =>
      if negb (has_filename p) then save_files rest files fs else
      let path := tmp_name (length fs) in
      let fs := (fs ++ [(path, default [] (part_payload p))])%list in
      let uf := mkUploadedFile (default "" (part_filename p)) (part_content_type p) path in
      save_files rest (assoc_set files (part_name p) uf) fs
  end.

(** [Request._parse_multipart_files] (lines 172-199), the [files]
    property. *)
Definition _parse_multipart_files (fr : FilesRequest)
  : outcome (option (list (string * UploadedFile))) * FilesRequest :=
  if negb (Nat.eqb (length (_files fr)) 0) then (Ok (Some (_files fr)), fr) else
  let '(o, rq) := _get_multipart_message multipart_parse (freq fr) in
  match o with
  | Raise e => (Raise e, mkFilesRequest rq (_files fr) (tmpfs fr))
  | Ok None => (Ok None, mkFilesRequest rq (_files fr) (tmpfs fr))
  | Ok (Some parts) =>
      let '(files, fs) := save_files parts (_files fr) (tmpfs fr) in
      let fr := mkFilesRequest rq files fs in
      if Nat.eqb (length files) 0 then (Ok None, fr) else (Ok (Some files), fr)
  end.

End Files.

(** The string entries of the WSGI environment. *)
Abbreviation environ := (gmap string string).

(** [self.env.get(k, d)]. *)
Definition env_get (env : environ) (k d : string) : string := default d (env !! k).

(** [Request.content_type]. *)
Definition content_type_env (env : environ) : string := env_get env "CONTENT_TYPE" "".

(** A native string of the WSGI environment as the code points Python sees:
    PEP 3333 native strings hold code points below 256 only (latin-1), one
    per character of the Rocq string. *)
Definition code_points (s : string) : list Z :=
  map (fun c => Z.of_nat (nat_of_ascii c)) (list_ascii_of_string s).

(** [str.upper()] of one latin-1 code point: [a-z] and [U+00E0..U+00FE]
    (but the division sign) move down by 32, [U+00B5] (micro sign) becomes
    [U+039C], [U+00DF] (sharp s) becomes [SS], [U+00FF] becomes [U+0178];
    every other latin-1 code point is its own upper case. *)
Definition cp_upper (c : Z) : list Z :=
  if ((97 <=? c) && (c <=? 122)) || ((224 <=? c) && (c <=? 254) && negb (c =? 247))
  then [c - 32]
  else if c =? 181 then [924]
  else if c =? 223 then [83; 83]
  else if c =? 255 then [376]
  else [c].

(** [str.upper()] on latin-1 text. *)
Definition py_upper (s : list Z) : list Z := flat_map cp_upper s.

(** [str.lower()] of one code point, for the latin-1 code points and the
    two upper cases [U+039C] and [U+0178] that [cp_upper] leaves outside
    latin-1: [A-Z] and [U+00C0..U+00DE] (but the multiplication sign) move up
    by 32, [U+039C] becomes [U+03BC], [U+0178] becomes [U+00FF]; every other
    of these code points is its own lower case. *)
Definition cp_lower (c : Z) : Z :=
  if ((65 <=? c) && (c <=? 90)) || ((192 <=? c) && (c <=? 222) && negb (c =? 215))
  then c + 32
  else if c =? 924 then 956
  else if c =? 376 then 255
  else c.

(** [str.lower()] on code points [cp_lower] covers. *)
Definition py_lower (s : list Z) : list Z := map cp_lower s.

(** [Request.protocol]. *)
Definition protocol (env : environ) : list Z :=
  py_upper (code_points (env_get env "wsgi.url_scheme" "http")).

(** [Request.host]: [None] when [HTTP_HOST] is missing. *)
Definition host (env : environ) : option string := env !! "HTTP_HOST".

(** [Request.origin]: the f-string prints a missing host as [None]. *)
Definition origin (env : environ) : list Z :=
  py_lower (protocol env ++ code_points "://" ++
            code_points (match host env with Some h => h | None => "None" end)).

(** [Request.secure]. *)
Definition secure (env : environ) : bool :=
  bool_decide (protocol env = code_points "HTTPS").

(** [s.split(sep)] for a one-character separator. *)
Fixpoint str_split (sep : ascii) (s : string) : list string :=
  match s with
  | EmptyString => [""]
  | String c rest =>
      if Ascii.eqb c sep then "" :: str_split sep rest
      else match str_split sep rest with
           | [] => [String c ""]
           | w :: ws => String c w :: ws
           end
  end.

(** [sub in s]. *)
Fixpoint str_contains (sub s : string) : bool :=
  String.prefix sub s ||
  match s with
  | String _ rest => str_contains sub rest
  | EmptyString => false
  end.

(** [str.isspace()] of one character (code points below 256). *)
Definition py_isspace (c : ascii) : bool :=
  let n := nat_of_ascii c in
  ((9 <=? n) && (n <=? 13))%nat || ((28 <=? n) && (n <=? 32))%nat
  || (n =? 133)%nat || (n =? 160)%nat.

Fixpoint lstrip (s : string) : string :=
  match s with
  | String c rest => if py_isspace c then lstrip rest else s
  | EmptyString => EmptyString
  end.

Definition str_rev (s : string) : string :=
  string_of_list_ascii (rev (list_ascii_of_string s)).

(** [str.strip()]. *)
Definition py_strip (s : string) : string := str_rev (lstrip (str_rev (lstrip s))).

(** The loop of [Request.charset] (lines 437-440); a part containing
    [charset=] has a second [=]-field, so [[1]] does not raise. *)
Fixpoint charset_of_parts (parts : list string) : option string :=
  match parts with
  | [] => None
  | part :: rest =>
      if str_contains "charset=" part
      then Some (py_strip (nth 1 (str_split "=" part) ""))
      else charset_of_parts rest
  end.

(** [Request.charset]; [content_type] is never [None] (it defaults to
    [''] ), so the first test of line 435 never returns. *)
Definition charset (env : environ) : option string :=
  charset_of_parts (str_split ";" (content_type_env env)).

Section Query.
Variable parse_qsl : string -> list (string * string).

(** [Request.query] (lines 412-415). *)
Definition query (env : environ) : option pyval :=
  match env !! "QUERY_STRING" with
  | None => None
  | Some qs => Some (PDict (dict_of_pairs (parse_qsl qs)))
  end.
End Query.

(** Helpers for stating what the dictionaries and reads above keep. *)

(** The value of the last pair with key [k]: what [dict(pairs)][[k]]
    holds. *)
Fixpoint last_assoc (ps : list (string * string)) (k : string) : option string :=
  match ps with
  | [] => None
  | (k', v) :: rest =>
      match last_assoc rest k with
      | Some v' => Some v'
      | None => if String.eqb k k' then Some v else None
      end
  end.

(** The value [_parse_multipart_form] stores for a part without filename:
    its decoded payload, or [None] when it has none. *)
Definition field_value (decode : list Byte.byte -> option string) (p : Part) : pyval :=
  match part_payload p with
  | None => PNone
  | Some b => match decode b with Some s => PStr s | None => PNone end
  end.

(** The value of the last part without filename named [k]. *)
Fixpoint last_field (decode : list Byte.byte -> option string) (parts : list Part)
    (k : string) : option pyval :=
  match parts with
  | [] => None
  | p :: rest =>
      match last_field decode rest k with
      | Some v => Some v
      | None =>
          if negb (has_filename p) && String.eqb k (part_name p)
          then Some (field_value decode p) else None
      end
  end.

(** A part the field loop stores without raising: a file part, or one
    whose payload is missing or decodes. *)
Definition field_decodes (decode : list Byte.byte -> option string) (p : Part) : bool :=
  has_filename p
  || match part_payload p with
     | Some b => match decode b with Some _ => true | None => false end
     | None => true
     end.

(** The last part with a filename named [k]: the one [_files[k]] ends up
    describing. *)
Fixpoint last_file (parts : list Part) (k : string) : option Part :=
  match parts with
  | [] => None
  | p :: rest =>
      match last_file rest k with
      | Some q => Some q
      | None => if has_filename p && String.eqb k (part_name p) then Some p else None
      end
  end.

(** The bytes the read loop takes once [readbytes] of [toread] are read:
    whole chunks of [CHUNK_SIZE] until [toread] is reached. *)
Definition chunked_need (readbytes toread : Z) : Z :=
  if toread <=? readbytes then 0
  else CHUNK_SIZE * ((toread - readbytes + CHUNK_SIZE - 1) / CHUNK_SIZE).

End ReqMore.

(* ------------------------------------------------------------------ *)
(** ** Concrete library functions and a concrete request world *)

(** Concrete stand-ins for the standard-library functions above, used to
    run the dispatcher and the parsers on explicit inputs. Each agrees with
    its Python counterpart on the inputs it accepts. *)
Module Concrete.

Definition quote : ascii := ascii_of_nat 34.

(** [bytes.decode()] on ASCII bytes (a byte >= 128 is refused). *)
Fixpoint decode_ascii (b : list Byte.byte) : option string :=
  match b with
  | [] => Some ""
  | x :: rest =>
      if (Byte.to_nat x <? 128)%nat
      then match decode_ascii rest with
           | Some s => Some (String (ascii_of_byte x) s)
           | None => None
           end
      else None
  end.

Fixpoint split_on (sep : ascii) (s : string) : list string :=
  match s with
  | EmptyString => [""]
  | String c rest =>
      if Ascii.eqb c sep then "" :: split_on sep rest
      else match split_on sep rest with
           | [] => [String c ""]
           | w :: ws => String c w :: ws
           end
  end.

Fixpoint split_first (sep : ascii) (s : string) : option (string * string) :=
  match s with
  | EmptyString => None
  | String c rest =>
      if Ascii.eqb c sep then Some ("", rest)
      else match split_first sep rest with
           | Some (k, v) => Some (String c k, v)
           | None => None
           end
  end.

(** [urllib.parse.parse_qsl] on query strings without [+] or [%] escapes:
    fields split on [&], pieces without [=] or with an empty value are
    dropped (no [keep_blank_values]). *)
Definition parse_qsl_plain (s : string) : list (string * string) :=
  flat_map
    (fun piece =>
       match split_first "=" piece with
       | Some (k, v) => if String.eqb v "" then [] else [(k, v)]
       | None => []
       end)
    (split_on "&" s).

Definition is_ws (c : ascii) : bool :=
  Ascii.eqb c " " || Ascii.eqb c nl || Ascii.eqb c cr || Ascii.eqb c (ascii_of_nat 9).

Fixpoint skip_ws (s : string) : string :=
  match s with
  | String c rest => if is_ws c then skip_ws rest else s
  | EmptyString => s
  end.

Definition is_digit (c : ascii) : bool :=
  let n := nat_of_ascii c in (48 <=? n)%nat && (n <=? 57)%nat.

Fixpoint digits (s : string) (acc : Z) (seen : bool) : option (Z * string) :=
  match s with
  | String c rest =>
      if is_digit c then digits rest (acc * 10 + Z.of_nat (nat_of_ascii c - 48)) true
      else if seen then Some (acc, s) else None
  | EmptyString => if seen then Some (acc, s) else None
  end.

Fixpoint str_lit (s acc : string) : option (string * string) :=
  match s with
  | EmptyString => None
  | String c rest =>
      if Ascii.eqb c quote then Some (acc, rest)
      else if Ascii.eqb c (ascii_of_nat 92) then None
      else str_lit rest (String.append acc (String c EmptyString))
  end.

Definition lit (word : string) (v : pyval) (s : string) : option (pyval * string) :=
  if String.prefix word s
  then Some (v, substring (String.length word) (String.length s) s)
  else None.

(** A JSON parser for null, true, false, non-negative integers, strings
    without escapes, arrays and objects. *)
Fixpoint parse_value (fuel : nat) (s : string) : option (pyval * string) :=
  match fuel with
  | O => None
  | S f =>
      match skip_ws s with
      | EmptyString => None
      | String c rest as s =>
          if Ascii.eqb c quote then
            match str_lit rest "" with
            | Some (x, r) => Some (PStr x, r)
            | None => None
            end
          else if Ascii.eqb c "[" then
            match skip_ws rest with
            | String "]" r => Some (PList [], r)
            | r => parse_items f r []
            end
          else if Ascii.eqb c "{" then
            match skip_ws rest with
            | String "}" r => Some (PDict [], r)
            | r => parse_members f r []
            end
          else if is_digit c then
            match digits s 0 false with
            | Some (z, r) => Some (PInt z, r)
            | None => None
            end
          else
            match lit "null" PNone s with
            | Some x => Some x
            | None =>
                match lit "true" (PBool true) s with
                | Some x => Some x
                | None => lit "false" (PBool false) s
                end
            end
      end
  end
with parse_items (fuel : nat) (s : string) (acc : list pyval) : option (pyval * string) :=
  match fuel with
  | O => None
  | S f =>
      match parse_value f s with
      | None => None
      | Some (v, r) =>
          match skip_ws r with
          | String "," r => parse_items f r (acc ++ [v])%list
          | String "]" r => Some (PList (acc ++ [v])%list, r)
          | _ => None
          end
      end
  end
with parse_members (fuel : nat) (s : string) (acc : list (string * pyval))
  : option (pyval * string) :=
  match fuel with
  | O => None
  | S f =>
      match skip_ws s with
      | String c rest =>
          if negb (Ascii.eqb c quote) then None else
          match str_lit rest "" with
          | None => None
          | Some (k, r) =>
              match skip_ws r with
              | String ":" r =>
                  match parse_value f r with
                  | None => None
                  | Some (v, r) =>
                      match skip_ws r with
                      | String "," r => parse_members f r (dict_set acc k v)
                      | String "}" r => Some (PDict (dict_set acc k v), r)
                      | _ => None
                      end
                  end
              | _ => None
              end
          end
      | EmptyString => None
      end
  end.

(** [json.loads] on that subset: one value and nothing but whitespace after. *)
Definition json_loads_subset (s : string) : option pyval :=
  match parse_value (S (String.length s)) s with
  | Some (v, r) => if String.eqb (skip_ws r) "" then Some v else None
  | None => None
  end.

(** The email parser on a body that is not a multipart message. *)
Definition not_multipart (_ : string) (_ : list Byte.byte) : option (list Req.Part) :=
  None.

(** [re.match] of a pattern without metacharacters: a prefix test, with no
    named groups. *)
Definition rx_literal (p path : string) : option App.params :=
  if String.prefix p path then Some [] else None.

(** A request world: method, path and the captured parameters. *)
Record World : Type := mkWorld { w_method : string; w_path : string; w_params : App.params }.

Definition w_set_params (ps : App.params) (w : World) : World :=
  mkWorld (w_method w) (w_path w) ps.

Definition bytes (s : string) : list Byte.byte := list_byte_of_string s.

(** Hooks, views and applications for running the dispatcher. *)
Abbreviation CView := (App.View World).
Abbreviation CApp := (App.RestiPy World).

Definition ok_response : Response := mkResponse (PDict [("ok", PBool true)]) 200 [].
Definition denied_response : Response :=
  mkResponse (PDict [("code", PStr "FORBIDDEN")]) 403 [].

Definition hook_none (w : World) : World * outcome PyRet := (w, Ok (RVal PNone)).
Definition hook_respond (r : Response) (w : World) : World * outcome PyRet :=
  (w, Ok (RResp r)).
Definition hook_raise (e : exn) (w : World) : World * outcome PyRet := (w, Raise e).
Definition after_noop (w : World) (_ : Response) : World * outcome pyval := (w, Ok PNone).
Definition on_exception_respond (r : Response) (w : World) (_ : exn)
  : World * outcome PyRet := (w, Ok (RResp r)).

(** A view class with [route = rt], [methods = ['get']], a [before_handler]
    that returns [None], the given [handler] and an [on_exception] that
    answers [ok_response]. *)
Definition view_with (rt : App.Route) (h : World -> World * outcome PyRet) : CView :=
  App.mkView World rt ["get"] hook_none h after_noop (on_exception_respond ok_response).

Definition tb_text : string :=
  String.append "  File app.py, line 1, in handler" (String nl EmptyString).
Definition serialize_json (_ : pyval) : list Byte.byte := bytes "{}".
Definition status_line_of (z : Z) : string :=
  if Z.eqb z 200 then "200 OK" else if Z.eqb z 404 then "404 Not Found"
  else "500 Internal Server Error".

Definition process (app : CApp) (w : World) :=
  App.process_request World w_path w_method w_set_params rx_literal tb_text app w.
Definition run_pipeline (app : CApp) (w : World) :=
  App.pipeline World w_path w_method w_set_params rx_literal app [] w.
Definition run_wsgi (app : CApp) (w : World) :=
  App.wsgi World w_path w_method w_set_params rx_literal tb_text serialize_json
    status_line_of app w.

Definition empty_app : CApp := App.mkRestiPy World ∅ [] [] [] false.

(** A request of [method] for [path]. *)
Definition req_of (method path : string) : World := mkWorld method path [].

(** [on_exception] answering 200 with [str(e)] as body. *)
Definition on_exception_echo (w : World) (e : exn) : World * outcome PyRet :=
  (w, Ok (RResp (mkResponse (PStr (exn_str e)) 200 []))).

(** A middleware whose [before_route] answers 403, with a [before_handler]
    and an [after_handler] that do nothing. *)
Definition app_shortcut : CApp :=
  App.mkRestiPy World ∅ [hook_respond denied_response] [hook_none] [after_noop] false.

(** [GET /users] routed to a view whose [handler] returns [None]. *)
Definition view_none : CView :=
  App.mkView World (App.RPattern "/users") ["get"] hook_none hook_none after_noop
    on_exception_echo.
Definition app_none_handler : CApp :=
  App.mkRestiPy World (<["GET" := [view_none]]> ∅) [] [] [after_noop] false.

(** A view class declaring its route as the string ['/users']. *)
Definition view_str : CView := view_with (App.RStr "/users") (hook_respond ok_response).

(** [GET] routes ['/users'] then ['/'], both compiled. *)
Definition view_users : CView := view_with (App.RPattern "/users") (hook_respond ok_response).
Definition view_root : CView := view_with (App.RPattern "/") (hook_respond denied_response).
Definition app_users : CApp :=
  App.mkRestiPy World (<["GET" := [view_users; view_root]]> ∅) [] [] [after_noop] false.
Definition app_users_only : CApp :=
  App.mkRestiPy World (<["GET" := [view_users]]> ∅) [hook_none] [] [] false.

(** A before-route middleware raising [ValueError('boom')]. *)
Definition boom : exn := EOther "ValueError" "boom".
Definition app_error : CApp :=
  App.mkRestiPy World ∅ [hook_raise boom] [hook_none] [after_noop] false.

(** Requests for the body accessors. *)
Definition rq_json_post : Req.Request :=
  Req.mkRequest "POST" "application/json; charset=utf-8" (Ok 3) (Some 1024) (bytes "[1]") (PDict []).
Definition rq_large : Req.Request :=
  Req.mkRequest "POST" "application/json" (Ok 2048) (Some 1024) (bytes "{}") (PDict []).
Definition rq_get_json : Req.Request :=
  Req.mkRequest "GET" "application/json" (Ok 1) (Some 1024) (bytes "{") (PDict []).
Definition rq_form_json : Req.Request :=
  Req.mkRequest "POST" "application/json" (Ok 3) (Some 1024) (bytes "a=b") (PDict []).
Definition rq_urlencoded : Req.Request :=
  Req.mkRequest "POST" "application/x-www-form-urlencoded" (Ok 3) (Some 1024) (bytes "a=b")
    (PDict []).
Definition rq_overlong : Req.Request :=
  Req.mkRequest "POST" "text/plain" (Ok 5) (Some 10) (repeat Byte.x00 100) (PDict []).

End Concrete.

(** More stand-ins for the hooks, parsers and requests the extra facts
    below are run on. *)
Module Concrete2.
Import Concrete.

(** A view for [GET /admin] whose [before_handler] answers 403, behind
    one before-route and one before-handler middleware. *)
Definition view_guarded : CView :=
  App.mkView World (App.RPattern "/admin") ["get"] (hook_respond denied_response)
    (hook_respond ok_response) after_noop (on_exception_respond ok_response).
Definition app_guarded : CApp :=
  App.mkRestiPy World (<["GET" := [view_guarded]]> ∅) [hook_none] [hook_none]
    [after_noop] false.

(** [GET /users] through one middleware of each phase and two
    after-handler middleware. *)
Definition app_full : CApp :=
  App.mkRestiPy World (<["GET" := [view_users]]> ∅) [hook_none] [hook_none]
    [after_noop; after_noop] false.

(** A view whose handler raises [RestiPyException('bad input')] and whose
    [on_exception] returns [None]. *)
Definition bad : exn := ERestiPy "bad input" None.
Definition on_exception_none (w : World) (_ : exn) : World * outcome PyRet :=
  (w, Ok (RVal PNone)).
Definition view_bad : CView :=
  App.mkView World (App.RPattern "/users") ["get"] hook_none (hook_raise bad) after_noop
    on_exception_none.
Definition app_bad : CApp :=
  App.mkRestiPy World (<["GET" := [view_bad]]> ∅) [] [] [] false.

(** An after-handler middleware raising [e], between two that do nothing. *)
Definition after_raise (e : exn) (w : World) (_ : Response) : World * outcome pyval :=
  (w, Raise e).
Definition app_after_fail : CApp :=
  App.mkRestiPy World (<["GET" := [view_users]]> ∅) [] []
    [after_noop; after_raise boom; after_noop] false.

(** A before-route middleware raising the 413 transport error. *)
Definition app_too_large : CApp :=
  App.mkRestiPy World ∅ [hook_raise (EHTTP Req.REQUEST_BODY_TOO_LARGE)] [] [] false.

(** A transport error with the unrecognized status 999. *)
Definition odd_status : HTTPException := mkHTTPException "Odd." 999 "ODD" [].
Definition app_odd_status : CApp :=
  App.mkRestiPy World ∅ [hook_raise (EHTTP odd_status)] [] [] false.

(** An email parser that finds the parts [ps] in any non-empty body. *)
Definition parts_parser (ps : list Req.Part) (_ : string) (b : list Byte.byte)
  : option (list Req.Part) :=
  match b with [] => None | _ => Some ps end.

Definition octet_stream (_ : Req.Part) : string := "application/octet-stream".

(** The [n]-th temporary file, for [n] below 10. *)
Definition tmp_path (n : nat) : string :=
  "/tmp/upload" ++ String (ascii_of_nat (48 + n)) EmptyString.

Definition field (name v : string) : Req.Part := Req.mkPart None name (Some (bytes v)).
Definition file_part (name fname content : string) : Req.Part :=
  Req.mkPart (Some fname) name (Some (bytes content)).

(** Fields [a], [b], [a] and two files both named [doc]. *)
Definition mp_parts : list Req.Part :=
  [field "a" "1"; file_part "doc" "a.txt" "AAA"; field "b" "2";
   file_part "doc" "b.txt" "BBB"; field "a" "3"].

(** A field whose payload is not valid UTF-8. *)
Definition bad_field : Req.Part := Req.mkPart None "c" (Some [Byte.xff]).

Definition rq_mp : Req.Request :=
  Req.mkRequest "POST" "multipart/form-data; boundary=X" (Ok 10) (Some 1024)
    (bytes "0123456789") (PDict []).
Definition fr_mp : ReqMore.FilesRequest := ReqMore.mkFilesRequest rq_mp [] [].

Definition rq_qs : Req.Request :=
  Req.mkRequest "POST" "application/x-www-form-urlencoded" (Ok 11) (Some 1024)
    (bytes "a=1&b=2&a=3") (PDict []).
Definition rq_qs_bad : Req.Request :=
  Req.mkRequest "POST" "application/x-www-form-urlencoded" (Ok 1) (Some 1024) [Byte.xff]
    (PDict []).
Definition rq_json_falsy : Req.Request :=
  Req.mkRequest "POST" "application/json" (Ok 2) (Some 1024) (bytes "[]") (PDict []).

Definition env_qs : ReqMore.environ := <["QUERY_STRING" := "a=1&b=2&a=3"]> ∅.
Definition env_https : ReqMore.environ := <["wsgi.url_scheme" := "HttpS"]> ∅.
Definition env_ct : ReqMore.environ := <["CONTENT_TYPE" := "text/plain; charset=utf-8"]> ∅.
(** Scheme [HTTPß] and host [Éx] (latin-1 code points 223 and 201). *)
Definition env_latin1 : ReqMore.environ :=
  <["wsgi.url_scheme" := "HTTP" ++ String (ascii_of_nat 223) EmptyString]>
  (<["HTTP_HOST" := String (ascii_of_nat 201) "x"]> ∅).

End Concrete2.

(* ================================================================== *)
(** * Properties of the dispatcher *)

Module AppFacts.
Import App.

Section Facts.

Variable W : Type.
Variable req_path : W -> string.
Variable req_method : W -> string.
Variable set_params : params -> W -> W.
Variable rx_match : string -> string -> option params.
Variable tb_frames : string.
Variable serialize : pyval -> list Byte.byte.
Variable status_line : Z -> string.

Local Abbreviation View := (View W).
Local Abbreviation RestiPy := (RestiPy W).
Local Abbreviation route_match := (route_match rx_match).
Local Abbreviation route := (route W).
Local Abbreviation _routes := (_routes W).
Local Abbreviation _before_route_m := (_before_route_m W).
Local Abbreviation _before_m := (_before_m W).
Local Abbreviation _after_m := (_after_m W).
Local Abbreviation DEBUG := (DEBUG W).
Local Abbreviation match_list := (match_list W rx_match).
Local Abbreviation match_ := (match_ W rx_match).
Local Abbreviation run_phase := (run_phase W).
Local Abbreviation pipeline := (pipeline W req_path req_method set_params rx_match).
Local Abbreviation process_request :=
  (process_request W req_path req_method set_params rx_match tb_frames).
Local Abbreviation wsgi :=
  (wsgi W req_path req_method set_params rx_match tb_frames serialize status_line).

(** A phase loop that ran to its end called every hook of the list, in
    order, and nothing else. *)
Lemma run_phase_none_log ev ms : forall i log w log1 w1,
  run_phase ev ms i log w = (log1, w1, Ok None) ->
  log1 = (log ++ map ev (seq i (length ms)))%list.
Proof.
  induction ms as [|m ms IH]; intros i log w log1 w1 H; simpl in H.
  - inversion H; subst. by rewrite app_nil_r.
  - destruct (m w) as [w' o] eqn:Hm.
    destruct o as [[r|v]|e]; try discriminate.
    apply IH in H. subst. simpl. by rewrite <- app_assoc.
Qed.

(** Whatever a phase loop returns, its log only records hooks of that
    phase. *)
Lemma run_phase_log ev ms : forall i log w log1 w1 o,
  run_phase ev ms i log w = (log1, w1, o) ->
  exists k, log1 = (log ++ map ev (seq i k))%list.
Proof.
  induction ms as [|m ms IH]; intros i log w log1 w1 o H; simpl in H.
  - inversion H; subst. exists 0%nat. by rewrite app_nil_r.
  - destruct (m w) as [w' o'] eqn:Hm.
    destruct o' as [[r|v]|e].
    + inversion H; subst. exists 1%nat. reflexivity.
    + apply IH in H as [k ->]. exists (S k). simpl. by rewrite <- app_assoc.
    + inversion H; subst. exists 1%nat. reflexivity.
Qed.

(** The loop stops at the first hook returning a [Response]. *)
Lemma run_phase_short_circuit ev pre m post : forall i log w log1 w1 w2 r,
  run_phase ev pre i log w = (log1, w1, Ok None) ->
  m w1 = (w2, Ok (RResp r)) ->
  run_phase ev (pre ++ m :: post)%list i log w
  = ((log1 ++ [ev (i + length pre)%nat])%list, w2, Ok (Some r)).
Proof.
  induction pre as [|m' pre IH]; intros i log w log1 w1 w2 r Hpre Hm; simpl in *.
  - inversion Hpre; subst. rewrite Hm. by rewrite Nat.add_0_r.
  - destruct (m' w) as [w' o] eqn:Hm'.
    destruct o as [[r'|v]|e]; try discriminate.
    rewrite (IH (S i) _ _ _ _ _ _ Hpre Hm). by rewrite Nat.add_succ_r.
Qed.

Lemma seq_snoc_map (ev : nat -> event) n :
  (map ev (seq 0 n) ++ [ev (0 + n)%nat])%list = map ev (seq 0 (S n)).
Proof. by rewrite seq_S, map_app. Qed.

(** C1 (amended). A before-route middleware that returns a [Response]
    ends [process_request] with that response: only the before-route
    hooks up to it ran (no later one, no routing, no view hook and no
    after-handler middleware). Likewise a before-handler middleware that
    returns a [Response] ends it: the log holds the before-route hooks, the
    before-handler hooks up to it, and no view hook or after-handler
    middleware. *)
Theorem middleware_short_circuit_returns_immediately :
  (forall (app : RestiPy) pre m post w w1 w2 log1 r,
     _before_route_m app = (pre ++ m :: post)%list ->
     run_phase EvBeforeRoute pre 0 [] w = (log1, w1, Ok None) ->
     m w1 = (w2, Ok (RResp r)) ->
     process_request app w = (map EvBeforeRoute (seq 0 (S (length pre))), w2, Ok r))
  /\
  (forall (app : RestiPy) (view : View) ps pre m post w w1 w2 w3 log1 log2 r,
     run_phase EvBeforeRoute (_before_route_m app) 0 [] w = (log1, w1, Ok None) ->
     match_ app (req_path w1) (req_method w1) = Ok (view, ps) ->
     _before_m app = (pre ++ m :: post)%list ->
     run_phase EvBeforeHandlerMw pre 0 log1 (set_params ps w1) = (log2, w2, Ok None) ->
     m w2 = (w3, Ok (RResp r)) ->
     process_request app w
     = ((map EvBeforeRoute (seq 0 (length (_before_route_m app)))
         ++ map EvBeforeHandlerMw (seq 0 (S (length pre))))%list, w3, Ok r)).
Proof.
  split.
  - intros app pre m post w w1 w2 log1 r Happ Hpre Hm.
    unfold App.process_request, App.pipeline. rewrite Happ.
    rewrite (run_phase_short_circuit _ _ _ _ _ _ _ _ _ _ _ Hpre Hm). simpl.
    apply run_phase_none_log in Hpre. subst. simpl.
    by rewrite seq_snoc_map.
  - intros app view ps pre m post w w1 w2 w3 log1 log2 r Hbr Hmatch Happ Hpre Hm.
    unfold App.process_request, App.pipeline. rewrite Hbr. simpl.
    rewrite Hmatch. rewrite Happ.
    rewrite (run_phase_short_circuit _ _ _ _ _ _ _ _ _ _ _ Hpre Hm). simpl.
    apply run_phase_none_log in Hbr. apply run_phase_none_log in Hpre. subst.
    simpl. rewrite <- app_assoc. by rewrite seq_snoc_map.
Qed.

(** A list whose routes are all compiled and none matches yields no view. *)
Lemma match_list_none (vs : list View) path :
  Forall (fun v : View => route_match (route v) path = Ok None) vs ->
  match_list vs path = Ok None.
Proof.
  induction 1 as [|v vs Hv _ IH]; simpl; [done|]. by rewrite Hv.
Qed.

(** The first matching route of a list is the one returned. *)
Lemma match_list_first (pre : list View) (R1 : View) rest path g1 :
  Forall (fun v : View => route_match (route v) path = Ok None) pre ->
  route_match (route R1) path = Ok (Some g1) ->
  match_list (pre ++ R1 :: rest)%list path = Ok (Some (R1, g1)).
Proof.
  intros Hpre H1. induction Hpre as [|v vs Hv _ IH]; simpl.
  - by rewrite H1.
  - by rewrite Hv.
Qed.

Lemma match_methods_none (app : RestiPy) ms path :
  Forall (fun m => Forall (fun v : View => route_match (route v) path = Ok None)
                          (default [] (_routes app !! m))) ms ->
  App.match_methods W rx_match (_routes app) ms path = Raise (EHTTP ROUTE_NOT_FOUND).
Proof.
  induction 1 as [|m ms Hm _ IH]; simpl; [done|].
  by rewrite (match_list_none _ _ Hm).
Qed.

(** C4. A [HEAD] request is matched against the [HEAD] list first: a match
    there is the result, and only when that list yields no match is the
    [GET] list searched, giving exactly what a [GET] lookup gives. The WSGI
    adapter then emits the status line and headers of the response
    [process_request] produced, and yields no body bytes. *)
Theorem head_request_get_fallback_and_empty_body (app : RestiPy) (path : string) :
  (forall x,
     match_list (default [] (_routes app !! "HEAD")) path = Ok (Some x) ->
     match_ app path "HEAD" = Ok x)
  /\
  (match_list (default [] (_routes app !! "HEAD")) path = Ok None ->
   match_ app path "HEAD" = match_ app path "GET")
  /\
  (forall w,
     req_method w = "HEAD" ->
     wsgi app w
     = match process_request app w with
       | (log, w', Ok out) =>
           ((log ++ [EvStartResponse (status_line (status out)) (headers out)])%list,
            w', Ok [])
       | (log, w', Raise e) => (log, w', Raise e)
       end).
Proof.
  split; [|split].
  - intros x Hx. unfold App.match_. simpl. by rewrite Hx.
  - intros Hnone. unfold App.match_. simpl. by rewrite Hnone.
  - intros w Hm. unfold App.wsgi. rewrite Hm.
    destruct (App.process_request _ _ _ _ _ _ app w) as [[log w'] [out|e]]; done.
Qed.

(** C5. Within one method's list, when [R1] is registered before [R2],
    both match the path and [R1] is the first route of the list that does,
    the lookup for that method returns [R1] with [R1]'s named groups. *)
Theorem first_match_precedence (app : RestiPy) (m path : string)
    (pre : list View) (R1 : View) (mid : list View) (R2 : View) (post : list View)
    (g1 g2 : params) :
  _routes app !! m = Some (pre ++ R1 :: mid ++ R2 :: post)%list ->
  Forall (fun v : View => route_match (route v) path = Ok None) pre ->
  route_match (route R1) path = Ok (Some g1) ->
  route_match (route R2) path = Ok (Some g2) ->
  match_ app path m = Ok (R1, g1).
Proof.
  intros Hl Hpre H1 _. unfold App.match_.
  destruct (String.eqb m "HEAD"); simpl; rewrite Hl; simpl;
    by rewrite (match_list_first _ _ _ _ _ Hpre H1).
Qed.

(** C6. When no candidate list ([method], then [GET] for [HEAD]) holds a
    matching route, the lookup raises the transport error 404
    [ROUTE_NOT_FOUND]; [process_request] turns it into a 404 response, and
    the only hooks that ran are the before-route middleware (no view
    hook, no before-handler or after-handler middleware). *)
Theorem route_not_found_404 (app : RestiPy) :
  (forall path method,
     Forall (fun m => Forall (fun v : View => route_match (route v) path = Ok None)
                             (default [] (_routes app !! m)))
            (if String.eqb method "HEAD" then [method; "GET"] else [method]) ->
     match_ app path method = Raise (EHTTP ROUTE_NOT_FOUND))
  /\ he_status_code ROUTE_NOT_FOUND = 404
  /\ he_code ROUTE_NOT_FOUND = "ROUTE_NOT_FOUND"
  /\
  (forall w w1 log1,
     run_phase EvBeforeRoute (_before_route_m app) 0 [] w = (log1, w1, Ok None) ->
     match_ app (req_path w1) (req_method w1) = Raise (EHTTP ROUTE_NOT_FOUND) ->
     process_request app w
     = (log1, w1, Ok (mkResponse (get_response_body ROUTE_NOT_FOUND) 404 []))
     /\ log1 = map EvBeforeRoute (seq 0 (length (_before_route_m app)))).
Proof.
  split; [|split; [done|split; [done|]]].
  - intros path method Hall. unfold App.match_. by apply match_methods_none.
  - intros w w1 log1 Hbr Hm. split.
    + unfold App.process_request, App.pipeline. rewrite Hbr. simpl.
      rewrite Hm. reflexivity.
    + by apply run_phase_none_log in Hbr.
Qed.

(** The trace [traceback.format_exc()] gives has at least one line. *)
Lemma format_exc_lines_nonempty e : splitlines (format_exc tb_frames e) <> [].
Proof.
  intros H. unfold splitlines, App.format_exc in H. cbn in H. discriminate H.

Qed.

(** C8. An exception that is not a transport error and escapes the
    pipeline becomes a 500 response after the trace is written to
    [wsgi.errors]: with [DEBUG = False] the body is exactly the generic
    code and message and carries no trace; with [DEBUG = True] it carries
    [str(e)] and the trace as a non-empty list of lines. *)
Theorem unclassified_exception_500 (app : RestiPy) w log w' e :
  pipeline app [] w = (log, w', Raise e) ->
  is_http_exception e = false ->
  (DEBUG app = false ->
   process_request app w
   = ((log ++ [EvErrorsWrite (format_exc tb_frames e)])%list, w',
      Ok (mkResponse
            (PDict [("code", PStr "INTERNAL_SERVER_ERROR");
                    ("error", PStr "Something went wrong, try again later.")])
            500 [])))
  /\
  (DEBUG app = true ->
   exists lines, lines <> [] /\
   process_request app w
   = ((log ++ [EvErrorsWrite (format_exc tb_frames e)])%list, w',
      Ok (mkResponse
            (PDict [("code", PStr "INTERNAL_SERVER_ERROR");
                    ("error", PStr (exn_str e));
                    ("stacktrace", PList (map PStr lines))])
            500 []))).
Proof.
  intros Hp Hnot. unfold App.process_request. rewrite Hp.
  destruct e as [h|m c|t m]; [discriminate| |];
    (split; intros Hd;
     [ unfold App.handle_exception; rewrite Hd; reflexivity
     | match goal with |- context [exn_str ?E] => exists (splitlines (format_exc tb_frames E)) end; split;
       [ apply format_exc_lines_nonempty
       | unfold App.handle_exception; rewrite Hd; reflexivity ] ]).
Qed.

(** [_add_view] leaves a route declared as a string a string: only a
    route that is not a [str] goes through [re.compile]. *)
Lemma add_view_keeps_string_route (app : RestiPy) (view : View) s :
  route view = RStr s -> route (snd (App._add_view W app view)) = RStr s.
Proof. intros H. unfold App._add_view. simpl. by rewrite H. Qed.

End Facts.
End AppFacts.

(* ================================================================== *)
(** * Properties of body reading and parsing *)

Module ReqFacts.
Import Req.

(** C7. A [POST], [PUT] or [PATCH] request whose declared length exceeds
    the configured [MAX_BODY_SIZE] fails with the transport error 413
    [REQUEST_BODY_TOO_LARGE] before anything is read: the request comes
    back unchanged, its input stream untouched (no byte read, none
    buffered). *)
Theorem body_too_large_413 (rq : Request) (mx cl : Z) :
  existsb (String.eqb (method rq)) ["POST"; "PUT"; "PATCH"] = true ->
  max_body_size rq = Some mx ->
  content_length rq = Ok cl ->
  cl > mx ->
  _read_body rq = (Raise (EHTTP REQUEST_BODY_TOO_LARGE), rq)
  /\ read_all rq = (Raise (EHTTP REQUEST_BODY_TOO_LARGE), rq)
  /\ he_status_code REQUEST_BODY_TOO_LARGE = 413
  /\ he_code REQUEST_BODY_TOO_LARGE = "REQUEST_BODY_TOO_LARGE".
Proof.
  intros Hm Hmax Hcl Hgt.
  assert (Hrb : _read_body rq = (Raise (EHTTP REQUEST_BODY_TOO_LARGE), rq)).
  { unfold _read_body. rewrite Hm, Hcl, Hmax. simpl.
    replace (cl >? mx) with true by lia. reflexivity. }
  split; [exact Hrb|]. split; [|done].
  unfold read_all. by rewrite Hrb.
Qed.

Section Parsing.

Variable decode : list Byte.byte -> option string.
Variable parse_qsl : string -> list (string * string).
Variable json_loads : string -> option pyval.
Variable multipart_parse : string -> list Byte.byte -> option (list Part).

Local Abbreviation json := (json decode json_loads).
Local Abbreviation _parse_json_data := (_parse_json_data decode json_loads).
Local Abbreviation _parse_url_encoded_form := (_parse_url_encoded_form decode parse_qsl).
Local Abbreviation _parse_multipart_form := (_parse_multipart_form decode multipart_parse).
Local Abbreviation run_access := (run_access decode parse_qsl json_loads multipart_parse).
Local Abbreviation run_accesses := (run_accesses decode parse_qsl json_loads multipart_parse).

(** Destruct every test and [match] of a parser in a hypothesis and
    invert the resulting pair equations. *)
Ltac case_parser :=
  repeat match goal with
  | H : (_, _) = (_, _) |- _ => inversion H; subst; clear H
  | H : context [if ?b then _ else _] |- _ => destruct b eqn:?
  | H : context [match ?x with _ => _ end] |- _ => destruct x eqn:?
  end.

(** C9 (amended). On a request whose cache [_form] is still falsy, whose
    Content-Type is [application/json], and whose body as [_read_body]
    yields it is non-empty (so the method is [POST], [PUT] or [PATCH] and
    the declared length is within [MAX_BODY_SIZE]), [json] raises the
    transport error 400 [INVALID_REQUEST_BODY] when the body does not
    decode or does not parse, and otherwise returns the parsed value and
    stores it in the cache. *)
Theorem json_first_read_parses_or_400 (rq rq' : Request) (body : list Byte.byte) :
  truthy (_form rq) = false ->
  before_semicolon (str_lower (content_type rq)) = "application/json" ->
  read_all rq = (Ok body, rq') ->
  body <> [] ->
  json rq
  = match match decode body with Some s => json_loads s | None => None end with
    | None => (Raise (EHTTP MALFORMED_JSON_BODY), rq')
    | Some v => (Ok (Some v), set_form rq' v)
    end
  /\ he_status_code MALFORMED_JSON_BODY = 400
  /\ he_code MALFORMED_JSON_BODY = "INVALID_REQUEST_BODY".
Proof.
  intros Hf Hct Hr Hne. split; [|done].
  unfold Req.json, Req._parse_json_data. rewrite Hf, Hct. simpl.
  rewrite Hr. destruct body as [|b bs]; [done|].
  destruct (match decode (b :: bs) with Some s => json_loads s | None => None end);
    reflexivity.
Qed.

(** Each parser answers from a truthy cache, whatever the Content-Type. *)
Lemma parsers_cache_hit (rq : Request) :
  truthy (_form rq) = true ->
  _parse_json_data rq = (Ok (Some (_form rq)), rq)
  /\ _parse_url_encoded_form rq = (Ok (Some (_form rq)), rq)
  /\ _parse_multipart_form rq = (Ok (Some (_form rq)), rq).
Proof.
  intros H. unfold Req._parse_json_data, Req._parse_url_encoded_form,
    Req._parse_multipart_form. by rewrite H.
Qed.

Lemma access_cache_hit a (rq : Request) :
  truthy (_form rq) = true -> run_access a rq = (Ok (Some (_form rq)), rq).
Proof.
  intros H. destruct (parsers_cache_hit rq H) as (Hj & Hu & Hm).
  destruct a; simpl; [exact Hj|]. unfold Req.form.
  destruct (String.prefix "multipart/" (content_type rq)); assumption.
Qed.

(** A truthy value returned by an access is the cache afterwards. *)
Lemma access_sets_cache a (rq rq1 : Request) v :
  run_access a rq = (Ok (Some v), rq1) -> truthy v = true -> _form rq1 = v.
Proof.
  intros H Hv.
  destruct a; simpl in H;
    [ unfold Req.json, Req._parse_json_data in H
    | unfold Req.form, Req._parse_multipart_form, Req._parse_url_encoded_form,
        Req._get_multipart_message in H ];
    case_parser; simpl in *; congruence.
Qed.

(** C10. The json, url-encoded and multipart parsers all answer from the
    one cache [_form] when it is truthy, before looking at the
    Content-Type; so once a [json] or [form] read returns a truthy value,
    every later [json] or [form] read of that request returns that same
    value and changes nothing. *)
Theorem shared_form_cache_first_wins :
  (forall rq : Request,
     truthy (_form rq) = true ->
     _parse_json_data rq = (Ok (Some (_form rq)), rq)
     /\ _parse_url_encoded_form rq = (Ok (Some (_form rq)), rq)
     /\ _parse_multipart_form rq = (Ok (Some (_form rq)), rq))
  /\
  (forall a (rq rq1 : Request) v (later : list access),
     run_access a rq = (Ok (Some v), rq1) ->
     truthy v = true ->
     run_accesses later rq1 = (repeat (Ok (Some v)) (length later), rq1)).
Proof.
  split; [exact parsers_cache_hit|].
  intros a rq rq1 v later Ha Hv.
  pose proof (access_sets_cache _ _ _ _ Ha Hv) as Hc. subst v.
  induction later as [|b later IH]; simpl; [done|].
  rewrite (access_cache_hit b rq1 Hv). by rewrite IH.
Qed.

End Parsing.
End ReqFacts.

(* ================================================================== *)
(** * More properties of registration, the view lifecycle and WSGI *)

Module AppMore.
Import App.

Section More.

Variable W : Type.
Variable req_path : W -> string.
Variable req_method : W -> string.
Variable set_params : params -> W -> W.
Variable rx_match : string -> string -> option params.
Variable tb_frames : string.
Variable serialize : pyval -> list Byte.byte.
Variable status_line : Z -> string.

Local Set Default Proof Using "Type".

Local Abbreviation View := (View W).
Local Abbreviation RestiPy := (RestiPy W).
Local Abbreviation route_match := (route_match rx_match).
Local Abbreviation route := (route W).
Local Abbreviation methods := (methods W).
Local Abbreviation before_handler := (before_handler W).
Local Abbreviation handler := (handler W).
Local Abbreviation after_handler := (after_handler W).
Local Abbreviation on_exception := (on_exception W).
Local Abbreviation _routes := (_routes W).
Local Abbreviation _before_route_m := (_before_route_m W).
Local Abbreviation _before_m := (_before_m W).
Local Abbreviation _after_m := (_after_m W).
Local Abbreviation DEBUG := (DEBUG W).
Local Abbreviation _add_view := (_add_view W).
Local Abbreviation match_ := (match_ W rx_match).
Local Abbreviation run_phase := (run_phase W).
Local Abbreviation run_view := (run_view W).
Local Abbreviation run_after := (run_after W).
Local Abbreviation pipeline := (pipeline W req_path req_method set_params rx_match).
Local Abbreviation process_request :=
  (process_request W req_path req_method set_params rx_match tb_frames).
Local Abbreviation wsgi :=
  (wsgi W req_path req_method set_params rx_match tb_frames serialize status_line).

(** The method loop of [_add_view] appends the view to the list of every
    upper-cased method, once per occurrence. *)
Lemma add_view_fold_lookup (v : View) ms : forall (rs : gmap string (list View)) k,
  default [] (fold_left
    (fun rs m => let m := str_upper m in
                 let l := default [] (rs !! m) in <[m := (l ++ [v])%list]> rs)
    ms rs !! k)
  = (default [] (rs !! k) ++ repeat v (count_occ string_dec (map str_upper ms) k))%list.
Proof.
  induction ms as [|m ms IH]; intros rs k; simpl.
  - by rewrite app_nil_r.
  - rewrite IH. destruct (string_dec (str_upper m) k) as [<-|Hne].
    + rewrite lookup_insert. destruct (string_dec (str_upper m) (str_upper m)); [|done].
      rewrite decide_True by done. simpl. by rewrite <- app_assoc.
    + rewrite lookup_insert_ne by done.
      by destruct (string_dec (str_upper m) k).
Qed.

Lemma add_view_fold_other (v : View) ms : forall (rs : gmap string (list View)) k,
  ~ In k (map str_upper ms) ->
  fold_left
    (fun rs m => let m := str_upper m in
                 let l := default [] (rs !! m) in <[m := (l ++ [v])%list]> rs)
    ms rs !! k = rs !! k.
Proof.
  clear tb_frames rx_match.
  induction ms as [|m ms IH]; intros rs k Hk; simpl; [done|].
  simpl in Hk. rewrite IH by tauto. rewrite lookup_insert_ne; [done|]. tauto.
Qed.

Lemma add_view_methods (app : RestiPy) (view : View) :
  methods (snd (_add_view app view)) = methods view.
Proof. unfold App._add_view. simpl. by destruct (App.route W view). Qed.

Lemma add_view_routes_eq (app : RestiPy) (view : View) :
  _routes (fst (_add_view app view))
  = fold_left
      (fun rs m => let m := str_upper m in
                   let l := default [] (rs !! m) in
                   <[m := (l ++ [snd (_add_view app view)])%list]> rs)
      (methods view) (_routes app).
Proof. unfold App._add_view. simpl. by destruct (App.route W view). Qed.

(** [RestiPy._add_view] keeps every list of the route table and appends the
    registered view to the list of each method it declares, upper-cased,
    once per declaration; the lists of other methods and the middleware
    are left as they were. *)
Theorem add_view_appends_to_method_lists (app : RestiPy) (view : View) (k : string) :
  default [] (_routes (fst (_add_view app view)) !! k)
  = (default [] (_routes app !! k)
     ++ repeat (snd (_add_view app view))
          (count_occ string_dec (map str_upper (methods view)) k))%list
  /\ (~ In k (map str_upper (methods view)) ->
      _routes (fst (_add_view app view)) !! k = _routes app !! k)
  /\ _before_route_m (fst (_add_view app view)) = _before_route_m app
  /\ _before_m (fst (_add_view app view)) = _before_m app
  /\ _after_m (fst (_add_view app view)) = _after_m app.
Proof.
  rewrite add_view_routes_eq. split; [apply add_view_fold_lookup|].
  split; [intros Hk; by apply add_view_fold_other|].
  unfold App._add_view. simpl. repeat split; by destruct (App.route W view).
Qed.

(** A view registered with a compiled pattern is found by the method it
    declares, in any letter case, when no route registered earlier for
    that method matches the path: lookup returns the registered view and
    the groups its pattern captures. *)
Theorem add_view_then_match (app : RestiPy) (view : View) p m path g :
  route view = RPattern p ->
  In m (methods view) ->
  Forall (fun v : View => route_match (route v) path = Ok None)
         (default [] (_routes app !! str_upper m)) ->
  rx_match p path = Some g ->
  match_ (fst (_add_view app view)) path (str_upper m)
  = Ok (snd (_add_view app view), g).
Proof.
  intros Hr Hin Hpre Hg.
  assert (Hc : (0 < count_occ string_dec (map str_upper (methods view)) (str_upper m))%nat).
  { apply count_occ_In. by apply in_map. }
  destruct (count_occ string_dec (map str_upper (methods view)) (str_upper m))
    as [|c] eqn:Ec; [lia|].
  assert (Hl : default [] (_routes (fst (_add_view app view)) !! str_upper m)
               = (default [] (_routes app !! str_upper m)
                  ++ snd (_add_view app view) :: repeat (snd (_add_view app view)) c)%list).
  { rewrite add_view_routes_eq, add_view_fold_lookup. by rewrite Ec. }
  assert (Hv : route_match (route (snd (_add_view app view))) path = Ok (Some g)).
  { unfold App._add_view. simpl. rewrite Hr. simpl. by rewrite Hg. }
  unfold App.match_.
  set (app' := fst (_add_view app view)) in *.
  set (v' := snd (_add_view app view)) in *.
  destruct (String.eqb (str_upper m) "HEAD"); cbn [App.match_methods]; rewrite Hl;
    by rewrite (AppFacts.match_list_first W rx_match _ _ _ _ _ Hpre Hv).
Qed.

(** A list whose routes before [v] all miss, and [v]'s route raises: the
    lookup raises that exception. *)
Lemma match_list_raise (pre : list View) (v : View) rest path e :
  Forall (fun v : View => route_match (route v) path = Ok None) pre ->
  route_match (route v) path = Raise e ->
  App.match_list W rx_match (pre ++ v :: rest)%list path = Raise e.
Proof.
  intros Hpre H1. induction Hpre as [|u us Hu _ IH]; simpl.
  - by rewrite H1.
  - by rewrite Hu.
Qed.

(** A view whose route is still a string is stored with that string, so a
    later lookup of one of its methods that reaches it (every earlier route
    of the list missing) raises [AttributeError] instead of matching or
    giving the 404. *)
Theorem add_view_string_route_raises (app : RestiPy) (view : View) s m path :
  route view = RStr s ->
  In m (methods view) ->
  Forall (fun v : View => route_match (route v) path = Ok None)
         (default [] (_routes app !! str_upper m)) ->
  route (snd (_add_view app view)) = RStr s
  /\ match_ (fst (_add_view app view)) path (str_upper m)
     = Raise (EOther "AttributeError" "'str' object has no attribute 'match'").
Proof.
  intros Hr Hin Hpre.
  assert (Hrs : route (snd (_add_view app view)) = RStr s).
  { unfold App._add_view. simpl. by rewrite Hr. }
  split; [exact Hrs|].
  assert (Hc : (0 < count_occ string_dec (map str_upper (methods view)) (str_upper m))%nat).
  { apply count_occ_In. by apply in_map. }
  destruct (count_occ string_dec (map str_upper (methods view)) (str_upper m))
    as [|c] eqn:Ec; [lia|].
  assert (Hl : default [] (_routes (fst (_add_view app view)) !! str_upper m)
               = (default [] (_routes app !! str_upper m)
                  ++ snd (_add_view app view) :: repeat (snd (_add_view app view)) c)%list).
  { rewrite add_view_routes_eq, add_view_fold_lookup. by rewrite Ec. }
  assert (Hv : route_match (route (snd (_add_view app view))) path
               = Raise (EOther "AttributeError" "'str' object has no attribute 'match'")).
  { by rewrite Hrs. }
  unfold App.match_.
  set (app' := fst (_add_view app view)) in *.
  set (v' := snd (_add_view app view)) in *.
  destruct (String.eqb (str_upper m) "HEAD"); cbn [App.match_methods]; rewrite Hl;
    by rewrite (match_list_raise _ _ _ _ _ Hpre Hv).
Qed.


(** The after-handler loop that ran to its end called every hook, in order. *)
Lemma run_after_ok_log ms : forall i r log w log1 w1 u,
  run_after ms i r log w = (log1, w1, Ok u) ->
  log1 = (log ++ map EvAfterMw (seq i (length ms)))%list.
Proof.
  induction ms as [|m ms IH]; intros i r log w log1 w1 u H; simpl in H.
  - inversion H; subst. by rewrite app_nil_r.
  - destruct (m w r) as [w' o] eqn:Hm. destruct o as [v|e]; [|discriminate].
    apply IH in H. subst. simpl. by rewrite <- app_assoc.
Qed.

(** The after-handler loop stops at the first hook that raises. *)
Lemma run_after_raise pre m post : forall i r log w log1 w1 w2 e,
  run_after pre i r log w = (log1, w1, Ok tt) ->
  m w1 r = (w2, Raise e) ->
  run_after (pre ++ m :: post)%list i r log w
  = ((log1 ++ [EvAfterMw (i + length pre)%nat])%list, w2, Raise e).
Proof.
  induction pre as [|m' pre IH]; intros i r log w log1 w1 w2 e Hpre Hm; simpl in *.
  - inversion Hpre; subst. rewrite Hm. by rewrite Nat.add_0_r.
  - destruct (m' w r) as [w' o] eqn:Hm'. destruct o as [v|e']; [|discriminate].
    rewrite (IH (S i) _ _ _ _ _ _ _ Hpre Hm). by rewrite Nat.add_succ_r.
Qed.

(** The complete lifecycle of a request no hook answers early and no hook
    raises: every before-route middleware, then every before-handler
    middleware, then the view's [before_handler], [handler] and
    [after_handler], then every after-handler middleware, each in
    registration order and each once; the response returned is the one the
    handler returned. *)
Theorem full_lifecycle_order (app : RestiPy) (view : View) ps v0 r u0
    w w1 w2 w3 w4 w5 w6 log1 log2 log3 u :
  run_phase EvBeforeRoute (_before_route_m app) 0 [] w = (log1, w1, Ok None) ->
  match_ app (req_path w1) (req_method w1) = Ok (view, ps) ->
  run_phase EvBeforeHandlerMw (_before_m app) 0 log1 (set_params ps w1) = (log2, w2, Ok None) ->
  before_handler view w2 = (w3, Ok (RVal v0)) ->
  handler view w3 = (w4, Ok (RResp r)) ->
  after_handler view w4 r = (w5, Ok u0) ->
  run_after (_after_m app) 0 r
    (log2 ++ [EvViewBefore; EvViewHandler; EvViewAfter])%list w5 = (log3, w6, Ok u) ->
  process_request app w
  = ((map EvBeforeRoute (seq 0 (length (_before_route_m app)))
      ++ map EvBeforeHandlerMw (seq 0 (length (_before_m app)))
      ++ [EvViewBefore; EvViewHandler; EvViewAfter]
      ++ map EvAfterMw (seq 0 (length (_after_m app))))%list, w6, Ok r).
Proof.
  intros Hbr Hm Hbh Hb Hh Ha Hafter.
  unfold App.process_request, App.pipeline. rewrite Hbr, Hm, Hbh.
  unfold App.run_view. rewrite Hb. simpl. rewrite Hh. simpl. rewrite Ha.
  replace (((log2 ++ [EvViewBefore]) ++ [EvViewHandler]) ++ [EvViewAfter])%list
    with (log2 ++ [EvViewBefore; EvViewHandler; EvViewAfter])%list
    by (by rewrite <- !app_assoc).
  rewrite Hafter. destruct u. simpl.
  apply (AppFacts.run_phase_none_log W) in Hbr.
  apply (AppFacts.run_phase_none_log W) in Hbh.
  apply run_after_ok_log in Hafter. subst. simpl.
  by rewrite <- !app_assoc.
Qed.

(** A view whose [before_handler] returns a [Response] ends the request
    with it: its [handler], [after_handler] and [on_exception] and every
    after-handler middleware are skipped. *)
Theorem view_before_handler_short_circuit (app : RestiPy) (view : View) ps
    w w1 w2 w3 log1 log2 r :
  run_phase EvBeforeRoute (_before_route_m app) 0 [] w = (log1, w1, Ok None) ->
  match_ app (req_path w1) (req_method w1) = Ok (view, ps) ->
  run_phase EvBeforeHandlerMw (_before_m app) 0 log1 (set_params ps w1) = (log2, w2, Ok None) ->
  before_handler view w2 = (w3, Ok (RResp r)) ->
  process_request app w
  = ((map EvBeforeRoute (seq 0 (length (_before_route_m app)))
      ++ map EvBeforeHandlerMw (seq 0 (length (_before_m app)))
      ++ [EvViewBefore])%list, w3, Ok r).
Proof.
  intros Hbr Hm Hbh Hb.
  unfold App.process_request, App.pipeline. rewrite Hbr, Hm, Hbh.
  unfold App.run_view. rewrite Hb. simpl.
  apply (AppFacts.run_phase_none_log W) in Hbr.
  apply (AppFacts.run_phase_none_log W) in Hbh. subst. simpl.
  by rewrite <- !app_assoc.
Qed.

(** When the handler raises a [RestiPyException] and the view's
    [on_exception] does not return a [Response], the contract violation
    [Route exception must return Response object.] (raised [from] the
    original exception) escapes the view block: with [DEBUG = False] it is
    written to [wsgi.errors] and answered by the generic 500, and no
    after-handler middleware runs. *)
Theorem on_exception_non_response_is_500 (app : RestiPy) (view : View) ps
    w w1 w2 w3 w4 w5 log1 log2 v0 msg cause v1 :
  run_phase EvBeforeRoute (_before_route_m app) 0 [] w = (log1, w1, Ok None) ->
  match_ app (req_path w1) (req_method w1) = Ok (view, ps) ->
  run_phase EvBeforeHandlerMw (_before_m app) 0 log1 (set_params ps w1) = (log2, w2, Ok None) ->
  before_handler view w2 = (w3, Ok (RVal v0)) ->
  handler view w3 = (w4, Raise (ERestiPy msg cause)) ->
  on_exception view w4 (ERestiPy msg cause) = (w5, Ok (RVal v1)) ->
  DEBUG app = false ->
  process_request app w
  = ((map EvBeforeRoute (seq 0 (length (_before_route_m app)))
      ++ map EvBeforeHandlerMw (seq 0 (length (_before_m app)))
      ++ [EvViewBefore; EvViewHandler; EvViewOnException;
          EvErrorsWrite (format_exc tb_frames
            (ERestiPy "Route exception must return Response object."
               (Some (ERestiPy msg cause))))])%list,
     w5, Ok (mkResponse INTERNAL_ERROR_BODY 500 [])).
Proof.
  intros Hbr Hm Hbh Hb Hh Ho Hd.
  unfold App.process_request, App.pipeline. rewrite Hbr, Hm, Hbh.
  unfold App.run_view. rewrite Hb. simpl. rewrite Hh. simpl.
  unfold App.view_except. simpl. rewrite Ho. simpl.
  unfold App.handle_exception. rewrite Hd. simpl.
  apply (AppFacts.run_phase_none_log W) in Hbr.
  apply (AppFacts.run_phase_none_log W) in Hbh. subst. simpl.
  by rewrite <- !app_assoc.
Qed.

(** An after-handler middleware that raises an exception other than an
    [HTTPException] discards the response the view produced: the
    after-handler middleware registered after it do not run, the trace is
    written to [wsgi.errors] and, with [DEBUG = False], the generic 500 is
    returned. *)
Theorem after_middleware_failure_is_500 (app : RestiPy) (view : View) ps
    w w1 w2 w3 w4 w5 log1 log2 log3 log4 r pre m post e :
  run_phase EvBeforeRoute (_before_route_m app) 0 [] w = (log1, w1, Ok None) ->
  match_ app (req_path w1) (req_method w1) = Ok (view, ps) ->
  run_phase EvBeforeHandlerMw (_before_m app) 0 log1 (set_params ps w1) = (log2, w2, Ok None) ->
  run_view view log2 w2 = (log3, w3, Ok (FallThrough r)) ->
  _after_m app = (pre ++ m :: post)%list ->
  run_after pre 0 r log3 w3 = (log4, w4, Ok tt) ->
  m w4 r = (w5, Raise e) ->
  is_http_exception e = false ->
  DEBUG app = false ->
  process_request app w
  = ((log3 ++ map EvAfterMw (seq 0 (S (length pre)))
      ++ [EvErrorsWrite (format_exc tb_frames e)])%list,
     w5, Ok (mkResponse INTERNAL_ERROR_BODY 500 [])).
Proof.
  intros Hbr Hm Hbh Hv Ha Hpre Hmw Hh Hd.
  unfold App.process_request, App.pipeline. rewrite Hbr, Hm, Hbh, Hv, Ha.
  rewrite (run_after_raise _ _ _ _ _ _ _ _ _ _ _ Hpre Hmw).
  destruct e as [h|mm c|t mm]; [discriminate| |];
    unfold App.handle_exception; rewrite Hd;
    apply run_after_ok_log in Hpre; subst;
    rewrite seq_S, map_app, <- !app_assoc; reflexivity.
Qed.

(** A transport error ([HTTPException]) with a recognized status that
    escapes the pipeline, whatever raised it, becomes the response
    [Response(e.get_response(), status_code=e.status_code,
    headers=e.headers)], and nothing is written to [wsgi.errors]. *)
Theorem http_exception_becomes_response (app : RestiPy) w log w' h :
  pipeline app [] w = (log, w', Raise (EHTTP h)) ->
  existsb (Z.eqb (he_status_code h)) HTTP_STATUS_CODES = true ->
  process_request app w
  = (log, w', Ok (mkResponse (get_response_body h) (he_status_code h) (he_headers h))).
Proof.
  intros Hp Hs. unfold App.process_request. rewrite Hp. simpl.
  unfold Response_new. by rewrite Hs.
Qed.

(** [process_request] lets an exception out only when a transport error
    whose status code is not a recognized one escapes the pipeline:
    building its response raises [Invalid status code.] outside every
    [try]. Any other exception becomes a response. *)
Theorem process_request_raises_only_on_invalid_status (app : RestiPy) w log w' e :
  process_request app w = (log, w', Raise e) ->
  exists h, pipeline app [] w = (log, w', Raise (EHTTP h))
    /\ existsb (Z.eqb (he_status_code h)) HTTP_STATUS_CODES = false
    /\ e = EOther "Exception" "Invalid status code.".
Proof.
  unfold App.process_request.
  destruct (pipeline app [] w) as [[l0 w0] [r|e0]] eqn:Hp; [discriminate|].
  destruct e0 as [h|m c|t m]; simpl.
  - unfold Response_new.
    destruct (existsb (Z.eqb (he_status_code h)) HTTP_STATUS_CODES) eqn:Hs;
      [discriminate|].
    intros H. inversion H; subst. by exists h.
  - destruct (Bool.eqb (DEBUG app) false); discriminate.
  - destruct (Bool.eqb (DEBUG app) false); discriminate.
Qed.

(** The WSGI adapter calls [start_response] with the status line and
    headers of the response [process_request] returned, then yields its
    serialized body as the one chunk, or nothing for a request whose
    method, read before processing, is [HEAD]. When [process_request]
    raises, [start_response] is never called. *)
Theorem wsgi_emits_processed_response (app : RestiPy) w :
  (forall log w' r,
     process_request app w = (log, w', Ok r) ->
     wsgi app w
     = ((log ++ [EvStartResponse (status_line (status r)) (headers r)])%list, w',
        Ok (if String.eqb (req_method w) "HEAD" then [] else [serialize (body r)])))
  /\
  (forall log w' e,
     process_request app w = (log, w', Raise e) ->
     wsgi app w = (log, w', Raise e)).
Proof.
  split; intros log w' x Hp; unfold App.wsgi; rewrite Hp; [|done].
  simpl. by destruct (String.eqb (req_method w) "HEAD").
Qed.

End More.
End AppMore.

(* ================================================================== *)
(** * More properties of body reading, parsing and the accessors *)

Module ReqMoreFacts.
Import Req ReqMore.

(** [lst[:n]] and [lst[n:]] at the ends and across a sum of indices. *)
Lemma take_nonpos {A} (n : Z) (l : list A) : n <= 0 -> take n l = [].
Proof. intros H. destruct l as [|x l]; simpl; [done|]. destruct (Z.leb_spec n 0); [done|lia]. Qed.

Lemma drop_nonpos {A} (n : Z) (l : list A) : n <= 0 -> drop n l = l.
Proof. intros H. destruct l as [|x l]; simpl; [done|]. destruct (Z.leb_spec n 0); [done|lia]. Qed.

Lemma take_all {A} (l : list A) : forall n, Z.of_nat (length l) <= n -> take n l = l.
Proof.
  induction l as [|x l IH]; intros n H; simpl; [done|]. simpl in H.
  destruct (Z.leb_spec n 0); [lia|]. f_equal. apply IH. lia.
Qed.

Lemma drop_all {A} (l : list A) : forall n, Z.of_nat (length l) <= n -> drop n l = [].
Proof.
  induction l as [|x l IH]; intros n H; simpl; [done|]. simpl in H.
  destruct (Z.leb_spec n 0); [lia|]. apply IH. lia.
Qed.

Lemma take_add {A} (l : list A) : forall a b, 0 <= a -> 0 <= b ->
  take (a + b) l = (take a l ++ take b (drop a l))%list.
Proof.
  induction l as [|x l IH]; intros a b Ha Hb; simpl; [done|].
  destruct (Z.leb_spec a 0).
  - replace a with 0 by lia. reflexivity.
  - destruct (Z.leb_spec (a + b) 0); [lia|]. simpl. f_equal.
    replace (a + b - 1) with ((a - 1) + b) by lia. apply IH; lia.
Qed.

Lemma drop_add {A} (l : list A) : forall a b, 0 <= a -> 0 <= b ->
  drop (a + b) l = drop b (drop a l).
Proof.
  induction l as [|x l IH]; intros a b Ha Hb; simpl.
  - by destruct (b <=? 0).
  - destruct (Z.leb_spec a 0).
    + replace a with 0 by lia. reflexivity.
    + destruct (Z.leb_spec (a + b) 0); [lia|].
      replace (a + b - 1) with ((a - 1) + b) by lia. apply IH; lia.
Qed.

Lemma length_take_le {A} (l : list A) : forall n, 0 <= n <= Z.of_nat (length l) ->
  Z.of_nat (length (take n l)) = n.
Proof.
  induction l as [|x l IH]; intros n H; cbn [take length] in *; [lia|].
  rewrite Nat2Z.inj_succ in H.
  destruct (Z.leb_spec n 0); cbn [length]; [lia|].
  rewrite Nat2Z.inj_succ, IH; lia.
Qed.

Lemma length_drop_le {A} (l : list A) : forall n, 0 <= n <= Z.of_nat (length l) ->
  Z.of_nat (length (drop n l)) = Z.of_nat (length l) - n.
Proof.
  induction l as [|x l IH]; intros n H; cbn [drop length] in *; [lia|].
  rewrite Nat2Z.inj_succ in H.
  destruct (Z.leb_spec n 0); cbn [length]; [lia|].
  rewrite IH; lia.
Qed.

Lemma read_chunks_nil fuel r t : read_chunks fuel [] r t = ([], []).
Proof. destruct fuel; simpl; [done|]. by destruct (r <? t). Qed.

Lemma chunked_need_nonneg r t : 0 <= chunked_need r t.
Proof.
  unfold chunked_need, CHUNK_SIZE. destruct (Z.leb_spec t r); [lia|].
  apply Z.mul_nonneg_nonneg; [lia|]. apply Z.div_pos; lia.
Qed.

Lemma chunked_need_step r t : r < t ->
  chunked_need r t = CHUNK_SIZE + chunked_need (r + CHUNK_SIZE) t.
Proof.
  intros Hrt. unfold chunked_need, CHUNK_SIZE.
  destruct (Z.leb_spec t r); [lia|].
  destruct (Z.leb_spec t (r + 64 * 1024)).
  - rewrite <- (Z.div_unique (t - r + 64 * 1024 - 1) (64 * 1024) 1 (t - r - 1)); lia.
  - replace (t - r + 64 * 1024 - 1) with ((t - (r + 64 * 1024) + 64 * 1024 - 1) + 1 * (64 * 1024))
      by lia.
    rewrite Z.div_add by lia. lia.
Qed.

Lemma chunked_need_ge r t : r < t -> CHUNK_SIZE <= chunked_need r t.
Proof.
  intros H. rewrite (chunked_need_step r t H).
  pose proof (chunked_need_nonneg (r + CHUNK_SIZE) t). lia.
Qed.

(** The read loop takes the first [chunked_need readbytes toread] bytes of
    the stream (all of them when it is shorter) and leaves the rest. *)
Lemma read_chunks_spec fuel : forall inp r t, (length inp < fuel)%nat ->
  concat (fst (read_chunks fuel inp r t)) = take (chunked_need r t) inp
  /\ snd (read_chunks fuel inp r t) = drop (chunked_need r t) inp.
Proof.
  induction fuel as [|f IH]; intros inp r t Hl; [lia|].
  cbn [read_chunks].
  destruct (Z.ltb_spec r t) as [Hrt|Hrt].
  2: { unfold chunked_need. destruct (Z.leb_spec t r); [|lia].
       simpl. rewrite take_nonpos, drop_nonpos by lia. done. }
  destruct inp as [|x xs]; [done|].
  assert (HC : CHUNK_SIZE = 65536) by reflexivity.
  destruct (Z.le_gt_cases CHUNK_SIZE (Z.of_nat (length (x :: xs)))) as [Hge|Hlt].
  - assert (Hlc : Z.of_nat (length (take CHUNK_SIZE (x :: xs))) = CHUNK_SIZE)
      by (apply length_take_le; lia).
    assert (Hld : Z.of_nat (length (drop CHUNK_SIZE (x :: xs)))
                  = Z.of_nat (length (x :: xs)) - CHUNK_SIZE)
      by (apply length_drop_le; lia).
    assert (Hf : (length (drop CHUNK_SIZE (x :: xs)) < f)%nat) by (simpl in *; lia).
    destruct (IH (drop CHUNK_SIZE (x :: xs)) (r + CHUNK_SIZE) t Hf) as [H1 H2].
    destruct (take CHUNK_SIZE (x :: xs)) as [|c cs] eqn:Ht; [simpl in Hlc; lia|].
    cbv beta iota zeta. rewrite Hlc.
    destruct (read_chunks f (drop CHUNK_SIZE (x :: xs)) (r + CHUNK_SIZE) t)
      as [cs' rest] eqn:Hrc.
    cbn [fst snd concat] in H1, H2 |- *.
    rewrite (chunked_need_step r t Hrt).
    pose proof (chunked_need_nonneg (r + CHUNK_SIZE) t).
    rewrite take_add, drop_add by lia. rewrite Ht, H1, H2. done.
  - assert (Htk : take CHUNK_SIZE (x :: xs) = x :: xs) by (apply take_all; lia).
    assert (Hdr : drop CHUNK_SIZE (x :: xs) = []) by (apply drop_all; lia).
    rewrite Htk. cbv beta iota zeta. rewrite Hdr, read_chunks_nil. cbn [fst snd concat].
    pose proof (chunked_need_ge r t Hrt).
    rewrite take_all, drop_all by lia. by rewrite app_nil_r.
Qed.

(** Whatever [read_all] returns, only the stream position of the request
    changed. *)
Lemma read_all_only_input (rq rq1 : Request) o :
  read_all rq = (o, rq1) -> rq1 = set_input rq (input rq1).
Proof.
  unfold read_all, _read_body.
  destruct rq as [m ct cl mx inp fm]; cbn -[read_chunks].
  destruct (negb _); [intros Hr; inversion Hr; reflexivity|].
  destruct cl as [cl|e]; [|intros Hr; inversion Hr; reflexivity].
  destruct mx as [mx|]; [|intros Hr; inversion Hr; reflexivity].
  destruct (cl >? mx); [intros Hr; inversion Hr; reflexivity|].
  destruct (read_chunks (S (length inp)) inp 0 (Z.max cl mx)) as [cs rest].
  intros Hr; inversion Hr; reflexivity.
Qed.

(** Once a read has drained the stream, every later read of that request
    gets no byte. *)
Lemma read_all_drained (rq rq1 : Request) body :
  read_all rq = (Ok body, rq1) -> input rq1 = [] ->
  forall f, read_all (set_form rq1 f) = (Ok [], set_form rq1 f).
Proof.
  intros Hr Hin f.
  pose proof (read_all_only_input rq rq1 (Ok body) Hr) as Hrq1.
  rewrite Hin in Hrq1. subst rq1.
  revert Hr. unfold read_all, _read_body.
  destruct rq as [m ct cl mx inp fm]; cbn -[read_chunks].
  destruct (negb _) eqn:Hb; [intros _; reflexivity|].
  destruct cl as [cl|e]; [|discriminate].
  destruct mx as [mx|]; [|discriminate].
  destruct (cl >? mx) eqn:Hgt; [discriminate|].
  intros _. rewrite read_chunks_nil. reflexivity.
Qed.

(** For a [POST], [PUT] or [PATCH] request whose declared length is within
    [MAX_BODY_SIZE], reading the body takes exactly the first
    [chunked_need 0 MAX_BODY_SIZE] bytes of the stream ([MAX_BODY_SIZE]
    rounded up to whole 64 KiB chunks; all of the stream when it is
    shorter; none when [MAX_BODY_SIZE <= 0]) and leaves the rest in the
    stream: the declared [Content-Length] does not bound the read. *)
Theorem read_all_takes_whole_chunks (rq : Request) (mx cl : Z) :
  existsb (String.eqb (method rq)) ["POST"; "PUT"; "PATCH"] = true ->
  max_body_size rq = Some mx ->
  content_length rq = Ok cl ->
  cl <= mx ->
  read_all rq
  = (Ok (take (chunked_need 0 mx) (input rq)),
     set_input rq (drop (chunked_need 0 mx) (input rq))).
Proof.
  intros Hm Hmax Hcl Hle. unfold read_all, _read_body. rewrite Hm, Hcl, Hmax.
  cbn -[read_chunks].
  replace (cl >? mx) with false by lia.
  replace (Z.max cl mx) with mx by lia.
  pose proof (read_chunks_spec (S (length (input rq))) (input rq) 0 mx ltac:(lia))
    as [H1 H2].
  destruct (read_chunks (S (length (input rq))) (input rq) 0 mx) as [cs rest].
  cbn [fst snd] in H1, H2. by rewrite <- H1, <- H2.
Qed.

(** [d[k] = v] then [d.get(k')]. *)
Lemma dict_set_get kv k v k' :
  assoc_get (dict_set kv k v) k' = if String.eqb k' k then Some v else assoc_get kv k'.
Proof.
  induction kv as [|[k0 v0] kv IH]; simpl; [done|].
  destruct (String.eqb_spec k k0) as [->|Hne]; simpl.
  - by destruct (String.eqb k' k0).
  - rewrite IH.
    destruct (String.eqb_spec k' k), (String.eqb_spec k' k0); subst; congruence.
Qed.

Lemma dict_set_keys kv k v x :
  In x (map fst (dict_set kv k v)) <-> x = k \/ In x (map fst kv).
Proof.
  induction kv as [|[k0 v0] kv IH]; simpl; [naive_solver|].
  destruct (String.eqb_spec k k0) as [->|Hne]; simpl; [naive_solver|].
  rewrite IH. naive_solver.
Qed.

Lemma dict_set_nodup kv k v : NoDup (map fst kv) -> NoDup (map fst (dict_set kv k v)).
Proof.
  induction kv as [|[k0 v0] kv IH]; simpl; intros Hnd.
  - constructor; [apply not_elem_of_nil|constructor].
  - inversion Hnd as [|? ? Hn Hnd']; subst.
    destruct (String.eqb_spec k k0) as [->|Hne]; simpl; [by constructor|].
    constructor; [|by apply IH].
    rewrite list_elem_of_In, dict_set_keys. rewrite list_elem_of_In in Hn.
    intros [->|]; [congruence|done].
Qed.

Lemma dict_of_pairs_get ps : forall d k,
  assoc_get (fold_left (fun d '(k, v) => dict_set d k (PStr v)) ps d) k
  = match last_assoc ps k with Some v => Some (PStr v) | None => assoc_get d k end.
Proof.
  induction ps as [|[k0 v0] ps IH]; intros d k; simpl; [done|].
  rewrite IH. destruct (last_assoc ps k); [done|].
  rewrite dict_set_get. by destruct (String.eqb k k0).
Qed.

Lemma dict_of_pairs_keys ps : forall d x,
  In x (map fst (fold_left (fun d '(k, v) => dict_set d k (PStr v)) ps d))
  <-> In x (map fst d) \/ In x (map fst ps).
Proof.
  induction ps as [|[k0 v0] ps IH]; intros d x; simpl; [tauto|].
  rewrite IH, dict_set_keys. naive_solver.
Qed.

Lemma dict_of_pairs_nodup ps : forall d, NoDup (map fst d) ->
  NoDup (map fst (fold_left (fun d '(k, v) => dict_set d k (PStr v)) ps d)).
Proof.
  induction ps as [|[k0 v0] ps IH]; intros d Hd; simpl; [done|].
  apply IH, dict_set_nodup, Hd.
Qed.

(** [dict(pairs)]: one entry per key of [pairs], holding the value of its
    last pair. *)
Lemma dict_of_pairs_spec ps :
  NoDup (map fst (dict_of_pairs ps))
  /\ (forall k, In k (map fst (dict_of_pairs ps)) <-> In k (map fst ps))
  /\ (forall k, assoc_get (dict_of_pairs ps) k = option_map PStr (last_assoc ps k)).
Proof.
  unfold dict_of_pairs. split; [|split].
  - apply dict_of_pairs_nodup. constructor.
  - intros k. rewrite dict_of_pairs_keys. simpl. tauto.
  - intros k. rewrite dict_of_pairs_get. by destruct (last_assoc ps k).
Qed.

Lemma dict_of_pairs_truthy ps :
  truthy (PDict (dict_of_pairs ps)) = match ps with [] => false | _ => true end.
Proof.
  destruct (dict_of_pairs_spec ps) as [_ [Hk _]].
  destruct ps as [|[k v] ps]; [reflexivity|].
  simpl. destruct (dict_of_pairs ((k, v) :: ps)) as [|e kv] eqn:Hd; [|reflexivity].
  exfalso. apply (proj2 (Hk k)). simpl. tauto.
Qed.

Section Parsers.
Variable decode : list Byte.byte -> option string.
Variable parse_qsl : string -> list (string * string).
Variable json_loads : string -> option pyval.
Variable multipart_parse : string -> list Byte.byte -> option (list Part).
Variable part_content_type : Part -> string.
Variable tmp_name : nat -> string.

Local Set Default Proof Using "Type".

(** An URL-encoded form with an empty cache: a body that is not UTF-8 is a
    400 [INVALID_REQUEST_BODY] (the body stays consumed); otherwise the
    cache holds one entry per key of [parse_qsl] with the value of its last
    pair, and the form is that dict, or [None] when there are no pairs. *)
Theorem url_encoded_form_last_value_wins (rq rq1 : Request) body :
  truthy (_form rq) = false ->
  read_all rq = (Ok body, rq1) ->
  (decode body = None ->
   _parse_url_encoded_form decode parse_qsl rq = (Raise (EHTTP INVALID_REQUEST_BODY), rq1))
  /\ (forall s, decode body = Some s ->
      exists kv,
        _parse_url_encoded_form decode parse_qsl rq
        = (match parse_qsl s with [] => Ok None | _ => Ok (Some (PDict kv)) end,
           set_form rq1 (PDict kv))
        /\ NoDup (map fst kv)
        /\ (forall k, In k (map fst kv) <-> In k (map fst (parse_qsl s)))
        /\ (forall k, assoc_get kv k = option_map PStr (last_assoc (parse_qsl s) k))).
Proof.
  intros Htr Hread. unfold _parse_url_encoded_form. rewrite Htr, Hread.
  split; [intros Hd; by rewrite Hd|].
  intros s Hd. rewrite Hd. exists (dict_of_pairs (parse_qsl s)).
  split; [|apply dict_of_pairs_spec].
  cbn [set_form _form]. rewrite dict_of_pairs_truthy.
  by destruct (parse_qsl s).
Qed.

(** [Request.query]: [None] without [QUERY_STRING]; otherwise a dict (empty
    for an empty query) with one entry per key of [parse_qsl], holding the
    value of its last pair. *)
Theorem query_last_value_wins (env : environ) :
  (env !! "QUERY_STRING" = None -> query parse_qsl env = None)
  /\ (forall qs, env !! "QUERY_STRING" = Some qs ->
      exists kv, query parse_qsl env = Some (PDict kv)
        /\ NoDup (map fst kv)
        /\ (forall k, In k (map fst kv) <-> In k (map fst (parse_qsl qs)))
        /\ (forall k, assoc_get kv k = option_map PStr (last_assoc (parse_qsl qs) k))).
Proof.
  unfold query. split; [intros H; by rewrite H|].
  intros qs H. rewrite H. exists (dict_of_pairs (parse_qsl qs)).
  split; [done|apply dict_of_pairs_spec].
Qed.

Lemma set_form_form (rq : Request) : set_form rq (_form rq) = rq.
Proof. by destruct rq. Qed.

Lemma read_all_keeps (rq rq1 : Request) o :
  read_all rq = (o, rq1) ->
  content_type rq1 = content_type rq /\ _form rq1 = _form rq.
Proof.
  intros H. pose proof (read_all_only_input rq rq1 o H) as E.
  rewrite E. by destruct rq.
Qed.

Lemma get_mm_keeps (rq rq1 : Request) o :
  _get_multipart_message multipart_parse rq = (o, rq1) ->
  content_type rq1 = content_type rq /\ _form rq1 = _form rq.
Proof.
  unfold _get_multipart_message.
  destruct (read_all rq) as [o' r'] eqn:E. apply read_all_keeps in E.
  destruct o'; intros H; inversion H; subst; exact E.
Qed.

Lemma filename_truthy p :
  truthy (match part_filename p with Some f => PStr f | None => PNone end) = has_filename p.
Proof. unfold has_filename. by destruct (part_filename p). Qed.

Lemma field_payload p :
  has_filename p = false -> field_decodes decode p = true ->
  match part_payload p with
  | None => Ok PNone
  | Some b =>
      match decode b with
      | Some s => Ok (PStr s)
      | None => Raise (EOther "UnicodeDecodeError" "invalid utf-8")
      end
  end = Ok (field_value decode p).
Proof.
  unfold field_decodes, field_value. intros -> Hd. simpl in Hd.
  destruct (part_payload p) as [b|]; [|done].
  by destruct (decode b).
Qed.

(** The field loop of [_parse_multipart_form] on a dict, when no payload
    fails to decode: it adds one entry per part without filename, the last
    such part of a name giving its value. *)
Lemma fill_form_ok parts : forall kv,
  forallb (field_decodes decode) parts = true ->
  exists kv', fill_form decode parts (PDict kv) = (PDict kv', None)
    /\ (NoDup (map fst kv) -> NoDup (map fst kv'))
    /\ (forall x, In x (map fst kv') <->
          In x (map fst kv)
          \/ In x (map part_name (List.filter (fun p => negb (has_filename p)) parts)))
    /\ (forall k, assoc_get kv' k
          = match last_field decode parts k with Some v => Some v | None => assoc_get kv k end).
Proof.
  clear part_content_type parse_qsl multipart_parse json_loads.
  induction parts as [|p rest IH]; intros kv Hok.
  - exists kv. split; [done|]. split; [done|]. split; [simpl; tauto|done].
  - cbn [forallb] in Hok. apply andb_prop in Hok as [Hp Hrest].
    cbn [fill_form]. rewrite filename_truthy.
    destruct (has_filename p) eqn:Hh.
    + destruct (IH kv Hrest) as (kv' & E & N & K & G). exists kv'.
      split; [exact E|]. split; [exact N|]. split.
      * intros x. rewrite K. cbn [List.filter]. by rewrite Hh.
      * intros k. rewrite G. cbn [last_field]. rewrite Hh.
        by destruct (last_field decode rest k).
    + rewrite (field_payload p Hh Hp).
      destruct (IH (dict_set kv (part_name p) (field_value decode p)) Hrest)
        as (kv' & E & N & K & G).
      exists kv'. split; [exact E|]. split; [intros; by apply N, dict_set_nodup|].
      split.
      * intros x. rewrite K, dict_set_keys. cbn [List.filter]. rewrite Hh.
        cbn [negb map In]. naive_solver.
      * intros k. rewrite G, dict_set_get. cbn [last_field]. rewrite Hh.
        cbn [negb andb]. destruct (last_field decode rest k); [done|].
        by destruct (String.eqb k (part_name p)).
Qed.

Lemma fill_form_app_ok pre : forall rest f f',
  fill_form decode pre f = (f', None) ->
  fill_form decode (pre ++ rest) f = fill_form decode rest f'.
Proof.
  induction pre as [|p pre IH]; intros rest f f' H; cbn [app fill_form] in *.
  - by inversion H.
  - destruct (truthy _); [by apply IH|].
    destruct (match part_payload p with
              | Some b => match decode b with
                          | Some s => Ok (PStr s)
                          | None => Raise (EOther "UnicodeDecodeError" "invalid utf-8")
                          end
              | None => Ok PNone end) as [v|e]; [|discriminate].
    destruct f; try discriminate. by apply IH.
Qed.

(** No entries over a list of parts without fields is falsy, and the
    converse. *)
Lemma fields_truthy kv parts :
  (forall x, In x (map fst kv) <->
     In x (map fst (@nil (string * pyval)))
     \/ In x (map part_name (List.filter (fun p => negb (has_filename p)) parts))) ->
  truthy (PDict kv)
  = match List.filter (fun p => negb (has_filename p)) parts with [] => false | _ => true end.
Proof.
  clear part_content_type parse_qsl multipart_parse json_loads.
  intros K.
  destruct kv as [|[k0 v0] kv], (List.filter (fun p => negb (has_filename p)) parts) as [|q qs];
    try reflexivity; exfalso.
  - apply (proj2 (K (part_name q))). simpl. tauto.
  - assert (Hk : In k0 (map fst ((k0, v0) :: kv))) by (simpl; tauto).
    apply K in Hk. simpl in Hk. tauto.
Qed.

(** A [json] read that parses to a falsy value ([[]], [{}], [0], [false],
    [""] or [null]) returns it but leaves the cache falsy, so the next
    [json] read finds the stream drained and returns [None]. *)
Theorem falsy_json_not_cached (rq rq1 : Request) body v :
  truthy (_form rq) = false ->
  existsb (String.eqb (before_semicolon (str_lower (content_type rq))))
    ["application/json"; "application/json-rpc"] = true ->
  read_all rq = (Ok body, rq1) ->
  body <> [] ->
  match decode body with Some s => json_loads s | None => None end = Some v ->
  truthy v = false ->
  input rq1 = [] ->
  run_accesses decode parse_qsl json_loads multipart_parse [AJson; AJson] rq
  = ([Ok (Some v); Ok None], set_form rq1 v).
Proof.
  intros Hf Hct Hr Hne Hv Htv Hin.
  destruct (read_all_keeps rq rq1 _ Hr) as [Hc _].
  assert (H1 : json decode json_loads rq = (Ok (Some v), set_form rq1 v)).
  { unfold json, _parse_json_data. rewrite Hf, Hct. cbn [negb]. rewrite Hr.
    destruct body as [|b bs]; [done|]. by rewrite Hv. }
  assert (H2 : json decode json_loads (set_form rq1 v) = (Ok None, set_form rq1 v)).
  { unfold json, _parse_json_data. cbn [set_form _form content_type].
    rewrite Htv. fold (content_type rq1). rewrite Hc, Hct. cbn [negb].
    fold (set_form rq1 v). by rewrite (read_all_drained rq rq1 body Hr Hin v). }
  cbn [run_accesses run_access]. rewrite H1. cbv beta iota zeta.
  rewrite H2. reflexivity.
Qed.

(** A multipart form read on an empty cache, when every field payload
    decodes: the cache becomes a dict with one entry per field name (parts
    with a filename are skipped), holding the value of the last field of
    that name; the form is that dict, or [None] when there is no field. *)
Theorem multipart_form_last_field_wins (rq rq1 : Request) parts :
  _form rq = PDict [] ->
  _get_multipart_message multipart_parse rq = (Ok (Some parts), rq1) ->
  forallb (field_decodes decode) parts = true ->
  exists kv,
    _parse_multipart_form decode multipart_parse rq
    = (match List.filter (fun p => negb (has_filename p)) parts with
       | [] => Ok None
       | _ => Ok (Some (PDict kv))
       end, set_form rq1 (PDict kv))
    /\ NoDup (map fst kv)
    /\ (forall k, In k (map fst kv)
          <-> In k (map part_name (List.filter (fun p => negb (has_filename p)) parts)))
    /\ (forall k, assoc_get kv k = last_field decode parts k).
Proof.
  clear parse_qsl json_loads.
  intros Hf Hgm Hok.
  destruct (get_mm_keeps rq rq1 _ Hgm) as [_ Hf1]. rewrite Hf in Hf1.
  destruct (fill_form_ok parts [] Hok) as (kv & E & N & K & G).
  exists kv. split; [|split; [apply N; constructor|split]].
  - unfold _parse_multipart_form. rewrite Hf, Hgm. cbn [truthy length Nat.eqb negb].
    rewrite Hf1, E. cbn [set_form _form]. fold (set_form rq1 (PDict kv)).
    rewrite (fields_truthy kv parts K).
    by destruct (List.filter (fun p => negb (has_filename p)) parts).
  - intros k. rewrite K. simpl. tauto.
  - intros k. rewrite G. by destruct (last_field decode parts k).
Qed.

(** A multipart field whose payload is not UTF-8 makes the form read raise
    [UnicodeDecodeError] (not a transport error), but the fields stored
    before it stay in the cache: when there is one, every later [json] or
    [form] read returns that partial dict. *)
Theorem multipart_decode_error_keeps_fields (rq rq1 : Request) pre p post b :
  _form rq = PDict [] ->
  _get_multipart_message multipart_parse rq = (Ok (Some (pre ++ p :: post)%list), rq1) ->
  forallb (field_decodes decode) pre = true ->
  has_filename p = false ->
  part_payload p = Some b ->
  decode b = None ->
  exists kv,
    _parse_multipart_form decode multipart_parse rq
    = (Raise (EOther "UnicodeDecodeError" "invalid utf-8"), set_form rq1 (PDict kv))
    /\ (forall k, assoc_get kv k = last_field decode pre k)
    /\ (List.filter (fun q => negb (has_filename q)) pre <> [] ->
        forall later : list access,
        run_accesses decode parse_qsl json_loads multipart_parse later (set_form rq1 (PDict kv))
        = (repeat (Ok (Some (PDict kv))) (length later), set_form rq1 (PDict kv))).
Proof.
  intros Hf Hgm Hok Hh Hp Hd.
  destruct (get_mm_keeps rq rq1 _ Hgm) as [_ Hf1]. rewrite Hf in Hf1.
  destruct (fill_form_ok pre [] Hok) as (kv & E & N & K & G).
  exists kv. split; [|split].
  - unfold _parse_multipart_form. rewrite Hf, Hgm. cbn [truthy length Nat.eqb negb].
    rewrite Hf1, (fill_form_app_ok pre (p :: post) _ _ E).
    cbn [fill_form]. rewrite filename_truthy, Hh, Hp, Hd. reflexivity.
  - intros k. rewrite G. by destruct (last_field decode pre k).
  - intros Hne later.
    assert (Ht : truthy (_form (set_form rq1 (PDict kv))) = true).
    { cbn [set_form _form]. rewrite (fields_truthy kv pre K).
      by destruct (List.filter (fun q => negb (has_filename q)) pre). }
    induction later as [|a later IH]; [done|].
    cbn [run_accesses].
    rewrite (ReqFacts.access_cache_hit decode parse_qsl json_loads multipart_parse a _ Ht).
    cbv beta iota zeta. rewrite IH. reflexivity.
Qed.

Lemma assoc_set_get {A} (kv : list (string * A)) k v k' :
  assoc_get (assoc_set kv k v) k' = if String.eqb k' k then Some v else assoc_get kv k'.
Proof.
  induction kv as [|[k0 v0] kv IH]; simpl; [done|].
  destruct (String.eqb_spec k k0) as [->|Hne]; simpl.
  - by destruct (String.eqb k' k0).
  - rewrite IH.
    destruct (String.eqb_spec k' k), (String.eqb_spec k' k0); subst; congruence.
Qed.

Lemma assoc_set_keys {A} (kv : list (string * A)) k v x :
  In x (map fst (assoc_set kv k v)) <-> x = k \/ In x (map fst kv).
Proof.
  clear parse_qsl multipart_parse json_loads.
  induction kv as [|[k0 v0] kv IH]; simpl; [naive_solver|].
  destruct (String.eqb_spec k k0) as [->|Hne]; simpl; [naive_solver|].
  rewrite IH. naive_solver.
Qed.

(** The part loop of [_parse_multipart_files]: one new temporary file per
    part with a filename, named and filled in order; [_files] gets the
    names of these parts, each describing the last part of its name. *)
Lemma save_files_spec parts : forall files fs files' fs',
  save_files part_content_type tmp_name parts files fs = (files', fs') ->
  fs' = (fs ++ combine (map tmp_name (seq (length fs) (length (List.filter has_filename parts))))
                      (map (fun p => default [] (part_payload p)) (List.filter has_filename parts)))%list
  /\ (forall x, In x (map fst files') <->
        In x (map fst files) \/ In x (map part_name (List.filter has_filename parts)))
  /\ (forall k, match last_file parts k with
        | None => assoc_get files' k = assoc_get files k
        | Some p => exists uf, assoc_get files' k = Some uf
            /\ uf_filename uf = default "" (part_filename p)
            /\ uf_content_type uf = part_content_type p
            /\ In (uf_filepath uf, default [] (part_payload p)) fs'
        end).
Proof.
  clear parse_qsl multipart_parse json_loads.
  induction parts as [|p rest IH]; intros files fs files' fs' H; cbn [save_files] in H.
  - inversion H; subst. cbn. rewrite app_nil_r. split; [done|]. split; [tauto|done].
  - destruct (has_filename p) eqn:Hh; cbn [negb] in H.
    + destruct (IH _ _ _ _ H) as (Efs & K & G).
      cbn [List.filter]. rewrite Hh. split; [|split].
      * rewrite Efs, <- app_assoc. f_equal.
        rewrite length_app. cbn [length seq map combine app].
        by rewrite Nat.add_1_r.
      * intros x. rewrite K, assoc_set_keys. cbn [map In]. naive_solver.
      * intros k. specialize (G k). cbn [last_file].
        destruct (last_file rest k) as [q|]; [exact G|].
        rewrite Hh. cbn [andb].
        destruct (String.eqb_spec k (part_name p)) as [->|Hne].
        -- eexists. rewrite G, assoc_set_get, String.eqb_refl.
           split; [reflexivity|]. split; [reflexivity|]. split; [reflexivity|].
           cbn [uf_filepath]. rewrite Efs. apply in_or_app; left.
           apply in_or_app; right. left. reflexivity.
        -- rewrite G, assoc_set_get.
           by destruct (String.eqb_spec k (part_name p)).
    + destruct (IH _ _ _ _ H) as (Efs & K & G).
      cbn [List.filter]. rewrite Hh. split; [exact Efs|]. split; [exact K|].
      intros k. specialize (G k). cbn [last_file]. rewrite Hh. cbn [andb].
      by destruct (last_file rest k).
Qed.

(** [files] on an empty [_files] cache, for a multipart message: every part
    with a filename is written to a new temporary file, in order, even when
    a later part of the same name replaces it in [_files]; [_files] gets
    one entry per such name, describing the last part of that name; the
    result is [None] when no part has a filename. *)
Theorem files_one_temp_file_per_file_part (fr : FilesRequest) rq1 parts :
  _files fr = [] ->
  _get_multipart_message multipart_parse (freq fr) = (Ok (Some parts), rq1) ->
  exists files fs,
    _parse_multipart_files multipart_parse part_content_type tmp_name fr
    = (match List.filter has_filename parts with [] => Ok None | _ => Ok (Some files) end,
       mkFilesRequest rq1 files fs)
    /\ fs = (tmpfs fr
             ++ combine (map tmp_name (seq (length (tmpfs fr))
                                           (length (List.filter has_filename parts))))
                        (map (fun p => default [] (part_payload p))
                             (List.filter has_filename parts)))%list
    /\ (forall k, In k (map fst files) <-> In k (map part_name (List.filter has_filename parts)))
    /\ (forall k, match last_file parts k with
          | None => assoc_get files k = None
          | Some p => exists uf, assoc_get files k = Some uf
              /\ uf_filename uf = default "" (part_filename p)
              /\ uf_content_type uf = part_content_type p
              /\ In (uf_filepath uf, default [] (part_payload p)) fs
          end).
Proof.
  clear parse_qsl json_loads.
  intros Hf Hgm. unfold _parse_multipart_files. rewrite Hf, Hgm.
  cbn [length Nat.eqb negb].
  destruct (save_files part_content_type tmp_name parts [] (tmpfs fr)) as [files fs] eqn:Hs.
  destruct (save_files_spec parts _ _ _ _ Hs) as (Efs & K & G).
  exists files, fs. split; [|split; [exact Efs|split]].
  - destruct files as [|[k0 u0] files'], (List.filter has_filename parts) as [|q qs] eqn:Hfp;
      try reflexivity; exfalso.
    + apply (proj2 (K (part_name q))). simpl. tauto.
    + assert (Hk : In k0 (map fst ((k0, u0) :: files'))) by (simpl; tauto).
      apply K in Hk. simpl in Hk. tauto.
  - intros k. rewrite K. simpl. tauto.
  - intros k. exact (G k).
Qed.

(** The multipart form and the uploaded files both parse the one body
    stream: once one of them has read it to the end, the other finds
    nothing. Reading [form] first makes [files] [None], and reading [files]
    first makes [form] [None] (given that the parser treats an empty body
    as not multipart). *)
Theorem multipart_form_and_files_exclusive (rq rq1 : Request) body fs :
  String.prefix "multipart/" (content_type rq) = true ->
  truthy (_form rq) = false ->
  read_all rq = (Ok body, rq1) ->
  input rq1 = [] ->
  multipart_parse (content_type rq) [] = None ->
  (forall o rq2, form decode parse_qsl multipart_parse rq = (o, rq2) ->
     _parse_multipart_files multipart_parse part_content_type tmp_name (mkFilesRequest rq2 [] fs)
     = (Ok None, mkFilesRequest rq2 [] fs))
  /\ (forall o fr2,
     _parse_multipart_files multipart_parse part_content_type tmp_name (mkFilesRequest rq [] fs)
     = (o, fr2) ->
     form decode parse_qsl multipart_parse (freq fr2) = (Ok None, freq fr2)).
Proof.
  intros Hpre Htr Hr Hin Hmp.
  destruct (read_all_keeps rq rq1 _ Hr) as [Hc Hf1].
  split.
  - intros o rq2 H.
    assert (Hex : exists f, rq2 = set_form rq1 f).
    { revert H. unfold form. rewrite Hpre. unfold _parse_multipart_form.
      rewrite Htr. unfold _get_multipart_message. rewrite Hr.
      destruct (multipart_parse (content_type rq1) body) as [parts|].
      - destruct (fill_form decode parts (_form rq1)) as [f err].
        destruct err; [|cbn [set_form _form]; destruct (truthy f)];
          intros H; inversion H; subst; by exists f.
      - intros H; inversion H; subst. exists (_form rq2). by rewrite set_form_form. }
    destruct Hex as [f ->].
    unfold _parse_multipart_files. cbn [_files length Nat.eqb negb freq].
    unfold _get_multipart_message.
    rewrite (read_all_drained rq rq1 body Hr Hin f).
    cbn [set_form content_type]. fold (content_type rq1). rewrite Hc, Hmp.
    reflexivity.
  - intros o fr2. unfold _parse_multipart_files. cbn [_files length Nat.eqb negb freq tmpfs].
    unfold _get_multipart_message. rewrite Hr.
    destruct (multipart_parse (content_type rq1) body) as [parts|];
      [destruct (save_files part_content_type tmp_name parts [] fs) as [files fs'];
       destruct (Nat.eqb (length files) 0)|].
    all: intros H; inversion H; subst; cbn [freq];
      unfold form; rewrite Hc, Hpre; unfold _parse_multipart_form;
      rewrite Hf1, Htr; unfold _get_multipart_message;
      rewrite <- (set_form_form rq1), (read_all_drained rq rq1 body Hr Hin (_form rq1)),
        set_form_form, Hc, Hmp; reflexivity.
Qed.

(** [files] on a request that is not multipart (the parser gives no
    parts) still reads the body through: a later [json] read then returns
    [None], even for a JSON request. *)
Theorem files_consumes_body (fr : FilesRequest) rq1 body :
  _files fr = [] ->
  truthy (_form (freq fr)) = false ->
  read_all (freq fr) = (Ok body, rq1) ->
  input rq1 = [] ->
  multipart_parse (content_type (freq fr)) body = None ->
  _parse_multipart_files multipart_parse part_content_type tmp_name fr
  = (Ok None, mkFilesRequest rq1 [] (tmpfs fr))
  /\ json decode json_loads rq1 = (Ok None, rq1).
Proof.
  intros Hf Htr Hr Hin Hmp.
  destruct (read_all_keeps _ rq1 _ Hr) as [Hc Hf1].
  split.
  - unfold _parse_multipart_files. rewrite Hf. cbn [length Nat.eqb negb].
    unfold _get_multipart_message. rewrite Hr, Hc, Hmp. reflexivity.
  - unfold json, _parse_json_data. rewrite Hf1, Htr.
    destruct (negb _); [reflexivity|].
    rewrite <- (set_form_form rq1), (read_all_drained _ rq1 body Hr Hin (_form rq1)),
      set_form_form. reflexivity.
Qed.


(** A request whose method is not [POST], [PUT] or [PATCH] has no body for
    [json]: with an empty cache it returns [None] whatever the Content-Type
    and the stream, and changes nothing. *)
Theorem bodyless_method_json_none (rq : Request) :
  existsb (String.eqb (method rq)) ["POST"; "PUT"; "PATCH"] = false ->
  truthy (_form rq) = false ->
  json decode json_loads rq = (Ok None, rq).
Proof.
  intros Hm Hf. unfold json, _parse_json_data. rewrite Hf.
  destruct (negb _); [reflexivity|].
  unfold read_all, _read_body. rewrite Hm. reflexivity.
Qed.

End Parsers.

(** A check of every latin-1 code point holds of each of them. *)
Lemma latin1_check (f : Z -> bool) :
  forallb f (map Z.of_nat (seq 0 256)) = true -> forall c, 0 <= c < 256 -> f c = true.
Proof.
  intros Hall c Hc. rewrite forallb_forall in Hall. apply Hall.
  apply in_map_iff. exists (Z.to_nat c). split; [lia|]. apply in_seq. lia.
Qed.

Lemma code_points_latin1 s : Forall (fun c => 0 <= c < 256) (code_points s).
Proof.
  unfold code_points. apply Forall_forall. intros c Hc.
  apply list_elem_of_In, in_map_iff in Hc as [a [<- _]]. pose proof (Ascii.nat_ascii_bounded a). lia.
Qed.

Lemma code_points_app s t : code_points (s ++ t) = (code_points s ++ code_points t)%list.
Proof.
  unfold code_points. rewrite <- map_app. f_equal.
  induction s as [|a s IH]; simpl; [done|]. by rewrite IH.
Qed.

Lemma py_lower_app s t : py_lower (s ++ t) = (py_lower s ++ py_lower t)%list.
Proof. apply map_app. Qed.

Lemma py_upper_app s t : py_upper (s ++ t) = (py_upper s ++ py_upper t)%list.
Proof. apply flat_map_app. Qed.

Lemma cp_lower_idem c : cp_lower (cp_lower c) = cp_lower c.
Proof.
  unfold cp_lower.
  destruct (Z.leb_spec 65 c), (Z.leb_spec c 90), (Z.leb_spec 192 c), (Z.leb_spec c 222),
    (Z.eqb_spec c 215), (Z.eqb_spec c 924), (Z.eqb_spec c 376); simpl;
  repeat match goal with
         | |- context [(?a <=? ?b)] => destruct (Z.leb_spec a b)
         | |- context [(?a =? ?b)] => destruct (Z.eqb_spec a b)
         end; simpl; lia.
Qed.

(** [s.lower().lower() = s.lower()]. *)
Lemma py_lower_idem s : py_lower (py_lower s) = py_lower s.
Proof.
  induction s as [|c s IH]; [reflexivity|]. simpl. by rewrite cp_lower_idem, IH.
Qed.

(** [c.upper().lower()] for a latin-1 code point: its lower case, except
    for the sharp s, which gives [ss], and the micro sign, which gives the
    Greek small mu. *)
Definition cp_fold (c : Z) : list Z :=
  if c =? 223 then [115; 115] else if c =? 181 then [956] else [cp_lower c].

Lemma cp_lower_upper c : 0 <= c < 256 -> py_lower (cp_upper c) = cp_fold c.
Proof.
  intros Hc.
  apply (latin1_check (fun c => bool_decide (py_lower (cp_upper c) = cp_fold c)))
    in Hc; [|vm_compute; reflexivity].
  by apply bool_decide_eq_true in Hc.
Qed.

Lemma py_lower_upper s :
  Forall (fun c => 0 <= c < 256) s -> py_lower (py_upper s) = flat_map cp_fold s.
Proof.
  induction 1 as [|c s Hc _ IH]; [reflexivity|].
  unfold py_upper. simpl. fold (py_upper s).
  by rewrite py_lower_app, cp_lower_upper, IH.
Qed.

(** The upper case of a latin-1 code point is never empty, and has two code
    points only for the sharp s. *)
Lemma cp_upper_shape c :
  0 <= c < 256 -> (exists x, cp_upper c = [x]) \/ cp_upper c = [83; 83].
Proof.
  intros Hc.
  apply (latin1_check (fun c => match cp_upper c with
                                | [_] => true
                                | l => bool_decide (l = [83; 83]) end)) in Hc;
    [|vm_compute; reflexivity].
  destruct (cp_upper c) as [|x [|y l]]; [done|by left; exists x|].
  right. by apply bool_decide_eq_true in Hc.
Qed.

(** A latin-1 code point whose upper case is one ASCII capital letter is
    that letter or its lower case. *)
Lemma cp_upper_capital c x :
  0 <= c < 256 -> cp_upper c = [x] -> 65 <= x <= 90 -> cp_lower c = x + 32.
Proof.
  intros Hc Hu Hx.
  apply (latin1_check (fun c => match cp_upper c with
                                | [x] => implb ((65 <=? x) && (x <=? 90)) (cp_lower c =? x + 32)
                                | _ => true end)) in Hc; [|vm_compute; reflexivity].
  rewrite Hu in Hc. apply Z.eqb_eq. revert Hc.
  replace ((65 <=? x) && (x <=? 90)) with true by (symmetry; apply andb_true_iff; lia).
  done.
Qed.

(** A latin-1 code point whose lower case is an ASCII small letter has the
    capital of that letter as upper case. *)
Lemma cp_lower_small c y :
  0 <= c < 256 -> cp_lower c = y -> 97 <= y <= 122 -> cp_upper c = [y - 32].
Proof.
  intros Hc Hl Hy.
  apply (latin1_check (fun c => implb ((97 <=? cp_lower c) && (cp_lower c <=? 122))
                                      (bool_decide (cp_upper c = [cp_lower c - 32]))))
    in Hc; [|vm_compute; reflexivity].
  rewrite Hl in Hc. revert Hc.
  replace ((97 <=? y) && (y <=? 122)) with true by (symmetry; apply andb_true_iff; lia).
  simpl. intros H. by apply bool_decide_eq_true in H.
Qed.

(** No two consecutive [S] in a list of code points. *)
Fixpoint no_double_S (t : list Z) : bool :=
  match t with
  | 83 :: 83 :: _ => false
  | _ :: t' => no_double_S t'
  | [] => true
  end.

Lemma no_double_S_tail x t : no_double_S (x :: t) = true -> no_double_S t = true.
Proof. destruct t as [|y t]; [done|]. simpl. destruct x as [|[]|[]]; try done.
  repeat (destruct p; try done). simpl. destruct y as [|[]|[]]; try done.
  repeat (destruct p; try done). Qed.

(** On latin-1 text, upper-casing gives a word of ASCII capitals without a
    double [S] exactly when lower-casing gives that word in small letters. *)
Lemma py_upper_capitals s t :
  Forall (fun c => 0 <= c < 256) s ->
  Forall (fun x => 65 <= x <= 90) t ->
  no_double_S t = true ->
  py_upper s = t <-> py_lower s = map (fun x => x + 32) t.
Proof.
  intros Hs. revert t. induction Hs as [|c s Hc Hs IH]; intros t Ht Hn.
  - split; intros H; [by subst|]. destruct t; [done|discriminate].
  - unfold py_upper. simpl. fold (py_upper s). split.
    + intros H. destruct (cp_upper_shape c Hc) as [[x Hx]|Hx]; rewrite Hx in H.
      * simpl in H. subst t. inversion Ht as [|? ? Hx' Ht']; subst.
        rewrite (cp_upper_capital c x Hc Hx Hx'). simpl. f_equal.
        apply (IH (py_upper s)); [done|eapply no_double_S_tail; done|reflexivity].
      * simpl in H. subst t. done.
    + intros H. destruct t as [|x t]; [discriminate|]. simpl in H. inversion H as [[Hl Hr]].
      inversion Ht as [|? ? Hx Ht']; subst.
      rewrite (cp_lower_small c (x + 32) Hc Hl ltac:(lia)).
      replace (x + 32 - 32) with x by lia. simpl. f_equal.
      apply IH; [done|eapply no_double_S_tail; done|done].
Qed.

(** [Request.origin]: the upper-casing of [protocol] is undone on the
    scheme, but for [str.upper] turning the sharp s into [SS] and the micro
    sign into a capital mu, which lower-case to [ss] and a small mu; the
    host is lower-cased, and a missing [HTTP_HOST] gives the host [none].
    The origin is its own lower case. *)
Theorem origin_lowercases (env : environ) :
  origin env
  = (flat_map cp_fold (code_points (env_get env "wsgi.url_scheme" "http"))
     ++ code_points "://"
     ++ py_lower (code_points (match env !! "HTTP_HOST" with Some h => h | None => "None" end)))%list
  /\ py_lower (origin env) = origin env.
Proof.
  split; [|apply py_lower_idem].
  unfold origin, protocol, host. rewrite !py_lower_app, py_lower_upper by apply code_points_latin1.
  reflexivity.
Qed.

(** [Request.secure] holds exactly when [wsgi.url_scheme] is [https] in
    any letter case. *)
Theorem secure_iff_https (env : environ) :
  secure env = true
  <-> py_lower (code_points (env_get env "wsgi.url_scheme" "http")) = code_points "https".
Proof.
  unfold secure, protocol. rewrite bool_decide_eq_true.
  apply py_upper_capitals; [apply code_points_latin1| |reflexivity].
  cbv [code_points]; simpl.
  repeat apply List.Forall_cons; try apply List.Forall_nil; split; vm_compute; discriminate.
Qed.

Lemma str_split_nonempty sep s : str_split sep s <> [].
Proof.
  destruct s as [|c s]; simpl; [done|].
  destruct (Ascii.eqb c sep); [done|]. by destruct (str_split sep s).
Qed.

Lemma hd_str_split_cons sep c rest :
  Ascii.eqb c sep = false ->
  hd "" (str_split sep (String c rest)) = String c (hd "" (str_split sep rest)).
Proof. intros H. simpl. rewrite H. by destruct (str_split sep rest). Qed.

(** A separator that [sub] does not contain cannot occur inside a match of
    [sub]: [sub] is a prefix of [t] iff it is a prefix of its first
    field. *)
Lemma prefix_split_hd sep t : forall sub,
  ~ In sep (list_ascii_of_string sub) ->
  String.prefix sub t = String.prefix sub (hd "" (str_split sep t)).
Proof.
  induction t as [|c rest IH]; intros sub Hsub; [reflexivity|].
  destruct (Ascii.eqb c sep) eqn:Hc.
  - apply Ascii.eqb_eq in Hc. subst c. simpl. rewrite Ascii.eqb_refl. simpl.
    destruct sub as [|a sub']; [reflexivity|].
    destruct (ascii_dec a sep) as [->|]; [|reflexivity].
    exfalso. apply Hsub. simpl. tauto.
  - rewrite hd_str_split_cons by exact Hc.
    destruct sub as [|a sub']; [reflexivity|]. simpl.
    destruct (ascii_dec a c); [|reflexivity].
    apply IH. intros Hin. apply Hsub. simpl. tauto.
Qed.

(** A needle without the separator occurs in [s] iff it occurs in one of
    the fields of [s.split(sep)]. *)
Lemma contains_split sep sub s :
  sub <> "" -> ~ In sep (list_ascii_of_string sub) ->
  existsb (str_contains sub) (str_split sep s) = str_contains sub s.
Proof.
  intros Hne Hsub.
  assert (Hempty : str_contains sub "" = false).
  { destruct sub; [done|reflexivity]. }
  induction s as [|c rest IH].
  - simpl. by rewrite orb_false_r.
  - destruct (Ascii.eqb c sep) eqn:Hc.
    + simpl str_split. rewrite Hc. cbn [existsb]. rewrite Hempty, IH. cbn [orb].
      apply Ascii.eqb_eq in Hc. subst c.
      cbn [str_contains]. replace (String.prefix sub (String sep rest)) with false; [done|].
      destruct sub as [|a sub']; [done|]. simpl.
      destruct (ascii_dec a sep) as [->|]; [|done].
      exfalso. apply Hsub. simpl. tauto.
    + pose proof (prefix_split_hd sep (String c rest) sub Hsub) as Hp.
      rewrite hd_str_split_cons in Hp by exact Hc.
      pose proof (str_split_nonempty sep rest) as Hn.
      simpl str_split. rewrite Hc.
      destruct (str_split sep rest) as [|w ws] eqn:Hs; [done|].
      cbn [existsb hd] in *. cbn [str_contains] in IH |- *.
      fold (str_contains sub w). fold (str_contains sub rest).
      rewrite Hp, <- IH. by rewrite orb_assoc.
Qed.

Lemma charset_of_parts_none ps :
  charset_of_parts ps = None <-> existsb (str_contains "charset=") ps = false.
Proof.
  induction ps as [|p ps IH]; simpl; [done|].
  destruct (str_contains "charset=" p); simpl; [done|exact IH].
Qed.

(** [Request.charset] finds a charset exactly when [charset=] occurs
    somewhere in the content type (splitting at [;] cannot cut it). *)
Theorem charset_none_iff (env : environ) :
  charset env = None <-> str_contains "charset=" (content_type_env env) = false.
Proof.
  unfold charset. rewrite charset_of_parts_none, contains_split; [done|done|].
  simpl. intuition discriminate.
Qed.

End ReqMoreFacts.

(* ================================================================== *)
(** * The properties on explicit requests *)

Module Checks.
Import Concrete.

Definition seen_events (r : list App.event * World * outcome Response) : list App.event :=
  fst (fst r).

(** C1, the part that holds: a before-route middleware answering 403 ends the request at once. *)
Lemma short_circuit_witness :
  process app_shortcut (req_of "GET" "/users")
  = (map App.EvBeforeRoute (seq 0 1), req_of "GET" "/users", Ok denied_response).
Proof.
  apply (proj1 (AppFacts.middleware_short_circuit_returns_immediately World w_path
           w_method w_set_params rx_literal tb_text)
           app_shortcut [] (hook_respond denied_response) [] (req_of "GET" "/users")
           (req_of "GET" "/users") (req_of "GET" "/users") [] denied_response);
    reflexivity.
Defined.

(** C1 fails for its after-handler part: the after-handler middleware registered with the
    short-circuiting one never runs; the log holds the before-route hook
    only. *)
Lemma short_circuit_skips_after_middleware :
  process app_shortcut (req_of "GET" "/users")
  = ([App.EvBeforeRoute 0], req_of "GET" "/users", Ok denied_response)
  /\ length (App._after_m World app_shortcut) = 1%nat
  /\ ~ In (App.EvAfterMw 0) (seen_events (process app_shortcut (req_of "GET" "/users"))).
Proof.
  split; [reflexivity|]. split; [reflexivity|].
  cbv. intros [H|H]; [discriminate|exact H].
Qed.

(** C2: a handler returning [None] raises the contract violation inside
    the view's [try], so [on_exception] receives it and its 200 response is
    returned. *)
Lemma non_response_handler_recovered_by_on_exception :
  process app_none_handler (req_of "GET" "/users")
  = ([App.EvViewBefore; App.EvViewHandler; App.EvViewOnException],
     req_of "GET" "/users",
     Ok (mkResponse (PStr "Route handler must return a Response object.") 200 [])).
Proof. reflexivity. Qed.

(** C3: registering a view whose route is the string ['/users'] leaves it a
    string in the view and in the [GET] list; matching it then raises
    [AttributeError], which ends as a generic 500. *)
Lemma string_route_left_uncompiled :
  App.route World (App._add_view World empty_app view_str).2 = App.RStr "/users"
  /\ option_map (map (App.route World))
       (App._routes World (App._add_view World empty_app view_str).1 !! "GET")
     = Some [App.RStr "/users"]
  /\ run_pipeline (App._add_view World empty_app view_str).1 (req_of "GET" "/users")
     = ([], req_of "GET" "/users",
        Raise (EOther "AttributeError" "'str' object has no attribute 'match'"))
  /\ snd (process (App._add_view World empty_app view_str).1 (req_of "GET" "/users"))
     = Ok (mkResponse App.INTERNAL_ERROR_BODY 500 []).
Proof. repeat split; reflexivity. Qed.

(** C4: a [HEAD] request with no [HEAD] route: the lookup is the [GET] one,
    and the WSGI adapter emits the status and headers with no body. *)
Lemma head_fallback_witness :
  App.match_ World rx_literal app_users "/users/42" "HEAD"
  = App.match_ World rx_literal app_users "/users/42" "GET"
  /\ run_wsgi app_users (req_of "HEAD" "/users")
     = ([App.EvViewBefore; App.EvViewHandler; App.EvViewAfter; App.EvAfterMw 0;
         App.EvStartResponse "200 OK" []],
        req_of "HEAD" "/users", Ok []).
Proof.
  pose proof (AppFacts.head_request_get_fallback_and_empty_body World w_path w_method
                w_set_params rx_literal tb_text serialize_json status_line_of) as H.
  split.
  - apply (proj1 (proj2 (H app_users "/users/42"))). reflexivity.
  - unfold run_wsgi.
    rewrite (proj2 (proj2 (H app_users "/users")) (req_of "HEAD" "/users") eq_refl).
    reflexivity.
Defined.

(** C5: ['/users'] registered before ['/'] wins for ['/users/42']. *)
Lemma first_match_witness :
  App.match_ World rx_literal app_users "/users/42" "GET" = Ok (view_users, []).
Proof.
  apply (AppFacts.first_match_precedence World rx_literal app_users "GET" "/users/42"
           [] view_users [] view_root [] [] []);
    [reflexivity | constructor | reflexivity | reflexivity].
Defined.

(** C6: [GET /about] with only ['/users'] registered: a 404 after the
    before-route hook, and nothing else ran. *)
Lemma not_found_witness :
  process app_users_only (req_of "GET" "/about")
  = ([App.EvBeforeRoute 0], req_of "GET" "/about",
     Ok (mkResponse (get_response_body App.ROUTE_NOT_FOUND) 404 [])).
Proof.
  apply (proj1 (proj2 (proj2 (proj2
    (AppFacts.route_not_found_404 World w_path w_method w_set_params rx_literal
       tb_text app_users_only))) (req_of "GET" "/about") (req_of "GET" "/about")
       [App.EvBeforeRoute 0] eq_refl eq_refl)).
Defined.

(** C7: a 2048-byte declared body against [MAX_BODY_SIZE = 1024]. *)
Lemma body_too_large_witness :
  Req._read_body rq_large = (Raise (EHTTP Req.REQUEST_BODY_TOO_LARGE), rq_large).
Proof.
  apply (proj1 (ReqFacts.body_too_large_413 rq_large 1024 2048 eq_refl eq_refl eq_refl
                  ltac:(vm_compute; reflexivity))).
Defined.

(** C8: [ValueError('boom')] from a before-route middleware with [DEBUG = False]. *)
Lemma internal_fault_witness :
  process app_error (req_of "GET" "/")
  = ([App.EvBeforeRoute 0; App.EvErrorsWrite (App.format_exc tb_text boom)],
     req_of "GET" "/",
     Ok (mkResponse
           (PDict [("code", PStr "INTERNAL_SERVER_ERROR");
                   ("error", PStr "Something went wrong, try again later.")]) 500 [])).
Proof.
  apply (proj1 (AppFacts.unclassified_exception_500 World w_path w_method w_set_params
                  rx_literal tb_text app_error (req_of "GET" "/") [App.EvBeforeRoute 0]
                  (req_of "GET" "/") boom eq_refl eq_refl) eq_refl).
Defined.

(** C9, the part that holds: [POST] of [[1]] as [application/json; charset=utf-8]. *)
Lemma json_parse_witness :
  Req.json decode_ascii json_loads_subset rq_json_post
  = (Ok (Some (PList [PInt 1])),
     Req.set_form (Req.set_input rq_json_post []) (PList [PInt 1])).
Proof.
  rewrite (proj1 (ReqFacts.json_first_read_parses_or_400 decode_ascii json_loads_subset
                    rq_json_post (Req.set_input rq_json_post []) (bytes "[1]")
                    eq_refl eq_refl eq_refl ltac:(discriminate))).
  reflexivity.
Defined.

(** C9 fails as stated: a [GET] request with the malformed JSON body [{]
    gets [None] from [json], no 400; and on a [POST] of the malformed JSON
    body [a=b], a [form] read first makes [json] return the url-encoded
    dictionary. *)
Lemma json_malformed_not_rejected :
  (json_loads_subset "{" = None
   /\ fst (Req.json decode_ascii json_loads_subset rq_get_json) = Ok None)
  /\
  (json_loads_subset "a=b" = None
   /\ fst (Req.run_accesses decode_ascii parse_qsl_plain json_loads_subset not_multipart
             [Req.AForm; Req.AJson] rq_form_json)
      = [Ok (Some (PDict [("a", PStr "b")])); Ok (Some (PDict [("a", PStr "b")]))]).
Proof. split; split; reflexivity. Qed.

(** C10: [form] read first on an url-encoded [a=b]: later [json] and [form]
    reads return that dictionary. *)
Lemma shared_cache_witness :
  Req.run_accesses decode_ascii parse_qsl_plain json_loads_subset not_multipart
    [Req.AJson; Req.AForm]
    (Req.set_form (Req.set_input rq_urlencoded []) (PDict [("a", PStr "b")]))
  = ([Ok (Some (PDict [("a", PStr "b")])); Ok (Some (PDict [("a", PStr "b")]))],
     Req.set_form (Req.set_input rq_urlencoded []) (PDict [("a", PStr "b")])).
Proof.
  eapply (proj2 (ReqFacts.shared_form_cache_first_wins decode_ascii parse_qsl_plain
                   json_loads_subset not_multipart) Req.AForm rq_urlencoded
           (Req.set_form (Req.set_input rq_urlencoded []) (PDict [("a", PStr "b")]))
           (PDict [("a", PStr "b")]) [Req.AJson; Req.AForm]);
    reflexivity.
Defined.

(** C7 fails for its bound on the bytes read from the stream: with a
    declared length of 5 and [MAX_BODY_SIZE = 10], [_read_body] aims at
    [max(5, 10)] bytes in 64 KiB chunks: one read takes all 100
    bytes the stream holds, ten times the configured maximum. *)
Lemma read_body_reads_past_max_body_size :
  Req._read_body rq_overlong
  = (Ok [repeat Byte.x00 100], Req.set_input rq_overlong []).
Proof. reflexivity. Qed.

End Checks.

(** Runs of the facts of [AppMore] and [ReqMoreFacts] on the stand-ins. *)
Module ExtraChecks.
Import Concrete Concrete2.

(** [_add_view] of [/users] on an application whose [GET] list is
    [[/users, /]]: appended at the end; no [POST] list appears. *)
Lemma add_view_appends_witness :
  default [] (App._routes World (App._add_view World app_users view_users).1 !! "GET")
  = [view_users; view_root; view_users]
  /\ App._routes World (App._add_view World app_users view_users).1 !! "POST" = None.
Proof.
  split.
  - rewrite (proj1 (AppMore.add_view_appends_to_method_lists World app_users view_users "GET")).
    reflexivity.
  - rewrite (proj1 (proj2 (AppMore.add_view_appends_to_method_lists World app_users view_users
                             "POST"))); [reflexivity|].
    simpl. intros [H|[]]. discriminate.
Defined.

Definition view_items : CView := view_with (App.RPattern "/items") (hook_respond ok_response).

(** [/items] registered after [/users]: [GET /items/7] finds it. *)
Lemma add_view_then_match_witness :
  App.match_ World rx_literal (App._add_view World app_users_only view_items).1 "/items/7" "GET"
  = Ok (view_items, []).
Proof.
  apply (AppMore.add_view_then_match World rx_literal app_users_only view_items "/items" "get"
           "/items/7" []);
    [reflexivity | left; reflexivity | vm_compute; repeat constructor | reflexivity].
Defined.

(** The string route ['/users'] registered after [/users]: the lookup of
    [GET /about] reaches it and raises. *)
Lemma add_view_string_route_witness :
  App.route World (App._add_view World app_users_only view_str).2 = App.RStr "/users"
  /\ App.match_ World rx_literal (App._add_view World app_users_only view_str).1 "/about" "GET"
     = Raise (EOther "AttributeError" "'str' object has no attribute 'match'").
Proof.
  apply (AppMore.add_view_string_route_raises World rx_literal app_users_only view_str "/users"
           "get" "/about");
    [reflexivity | left; reflexivity | vm_compute; repeat constructor].
Defined.

(** [GET /users] with one middleware of each phase and two after-handler
    middleware. *)
Lemma full_lifecycle_witness :
  process app_full (req_of "GET" "/users")
  = ([App.EvBeforeRoute 0; App.EvBeforeHandlerMw 0; App.EvViewBefore; App.EvViewHandler;
      App.EvViewAfter; App.EvAfterMw 0; App.EvAfterMw 1],
     req_of "GET" "/users", Ok ok_response).
Proof.
  etransitivity.
  - eapply (AppMore.full_lifecycle_order World w_path w_method w_set_params rx_literal tb_text
              app_full view_users [] PNone ok_response PNone (req_of "GET" "/users"));
      reflexivity.
  - reflexivity.
Defined.

(** [GET /admin]: the view's [before_handler] answers 403. *)
Lemma view_before_handler_witness :
  process app_guarded (req_of "GET" "/admin")
  = ([App.EvBeforeRoute 0; App.EvBeforeHandlerMw 0; App.EvViewBefore],
     req_of "GET" "/admin", Ok denied_response).
Proof.
  etransitivity.
  - eapply (AppMore.view_before_handler_short_circuit World w_path w_method w_set_params
              rx_literal tb_text app_guarded view_guarded [] (req_of "GET" "/admin"));
      reflexivity.
  - reflexivity.
Defined.

(** The handler raises [RestiPyException('bad input')], [on_exception]
    returns [None]. *)
Lemma on_exception_non_response_witness :
  process app_bad (req_of "GET" "/users")
  = ([App.EvViewBefore; App.EvViewHandler; App.EvViewOnException;
      App.EvErrorsWrite (App.format_exc tb_text
        (ERestiPy "Route exception must return Response object." (Some bad)))],
     req_of "GET" "/users", Ok (mkResponse App.INTERNAL_ERROR_BODY 500 [])).
Proof.
  etransitivity.
  - eapply (AppMore.on_exception_non_response_is_500 World w_path w_method w_set_params
              rx_literal tb_text app_bad view_bad [] (req_of "GET" "/users"));
      reflexivity.
  - reflexivity.
Defined.

(** The second of three after-handler middleware raises [ValueError]. *)
Lemma after_middleware_failure_witness :
  process app_after_fail (req_of "GET" "/users")
  = ([App.EvViewBefore; App.EvViewHandler; App.EvViewAfter; App.EvAfterMw 0; App.EvAfterMw 1;
      App.EvErrorsWrite (App.format_exc tb_text boom)],
     req_of "GET" "/users", Ok (mkResponse App.INTERNAL_ERROR_BODY 500 [])).
Proof.
  etransitivity.
  - eapply (AppMore.after_middleware_failure_is_500 World w_path w_method w_set_params
              rx_literal tb_text app_after_fail view_users [] (req_of "GET" "/users")
              _ _ _ _ _ _ _ _ _ _ [after_noop] (after_raise boom) [after_noop] boom);
      reflexivity.
  - reflexivity.
Defined.

(** A before-route middleware raising the 413 transport error. *)
Lemma http_exception_witness :
  process app_too_large (req_of "GET" "/")
  = ([App.EvBeforeRoute 0], req_of "GET" "/",
     Ok (mkResponse (PDict [("code", PStr "REQUEST_BODY_TOO_LARGE");
                            ("error", PStr "Request body too large.")]) 413 [])).
Proof.
  etransitivity.
  - eapply (AppMore.http_exception_becomes_response World w_path w_method w_set_params
              rx_literal tb_text app_too_large (req_of "GET" "/") [App.EvBeforeRoute 0]
              (req_of "GET" "/") Req.REQUEST_BODY_TOO_LARGE);
      reflexivity.
  - reflexivity.
Defined.

(** A transport error with status 999 escapes [process_request]: the
    exception it raises comes from that error. *)
Lemma invalid_status_witness :
  exists h,
    App.pipeline World w_path w_method w_set_params rx_literal app_odd_status []
      (req_of "GET" "/")
    = ([App.EvBeforeRoute 0], req_of "GET" "/", Raise (EHTTP h))
    /\ existsb (Z.eqb (he_status_code h)) HTTP_STATUS_CODES = false.
Proof.
  destruct (AppMore.process_request_raises_only_on_invalid_status World w_path w_method
              w_set_params rx_literal tb_text app_odd_status (req_of "GET" "/")
              [App.EvBeforeRoute 0] (req_of "GET" "/")
              (EOther "Exception" "Invalid status code.") eq_refl) as [h [P [X _]]].
  exists h. split; [exact P | exact X].
Defined.

(** [GET /users] through the WSGI adapter: the status line, then the
    serialized body. *)
Lemma wsgi_witness :
  run_wsgi app_users (req_of "GET" "/users")
  = ([App.EvViewBefore; App.EvViewHandler; App.EvViewAfter; App.EvAfterMw 0;
      App.EvStartResponse "200 OK" []],
     req_of "GET" "/users", Ok [bytes "{}"]).
Proof.
  etransitivity.
  - eapply (proj1 (AppMore.wsgi_emits_processed_response World w_path w_method w_set_params
              rx_literal tb_text serialize_json status_line_of app_users (req_of "GET" "/users"))).
    reflexivity.
  - reflexivity.
Defined.

(** A declared length of 5 and [MAX_BODY_SIZE = 10]: one chunk of up to
    64 KiB, here the whole stream. *)
Lemma read_all_whole_chunks_witness :
  Req.read_all rq_overlong = (Ok (repeat Byte.x00 100), Req.set_input rq_overlong []).
Proof.
  etransitivity.
  - apply (ReqMoreFacts.read_all_takes_whole_chunks rq_overlong 10 5);
      [reflexivity | reflexivity | reflexivity | vm_compute; discriminate].
  - reflexivity.
Defined.


(** [a=1&b=2&a=3]: [a] holds [3]; the body [b'\xff'] is a 400. *)
Lemma url_encoded_form_witness :
  (exists kv,
     Req._parse_url_encoded_form decode_ascii parse_qsl_plain rq_qs
     = (Ok (Some (PDict kv)), Req.set_form (Req.set_input rq_qs []) (PDict kv))
     /\ ReqMore.assoc_get kv "a" = Some (PStr "3")
     /\ ReqMore.assoc_get kv "b" = Some (PStr "2")
     /\ ReqMore.assoc_get kv "c" = None)
  /\ Req._parse_url_encoded_form decode_ascii parse_qsl_plain rq_qs_bad
     = (Raise (EHTTP Req.INVALID_REQUEST_BODY), Req.set_input rq_qs_bad []).
Proof.
  split.
  - destruct (proj2 (ReqMoreFacts.url_encoded_form_last_value_wins decode_ascii parse_qsl_plain
                rq_qs (Req.set_input rq_qs []) (bytes "a=1&b=2&a=3") eq_refl eq_refl)
                "a=1&b=2&a=3" eq_refl) as [kv [E [_ [_ G]]]].
    exists kv. rewrite E, !G. repeat split; reflexivity.
  - apply (proj1 (ReqMoreFacts.url_encoded_form_last_value_wins decode_ascii parse_qsl_plain
                    rq_qs_bad (Req.set_input rq_qs_bad []) [Byte.xff] eq_refl eq_refl)).
    reflexivity.
Defined.

(** [?a=1&b=2&a=3]: [a] holds [3]. *)
Lemma query_witness :
  exists kv,
    ReqMore.query parse_qsl_plain env_qs = Some (PDict kv)
    /\ ReqMore.assoc_get kv "a" = Some (PStr "3")
    /\ ReqMore.assoc_get kv "b" = Some (PStr "2").
Proof.
  destruct (proj2 (ReqMoreFacts.query_last_value_wins parse_qsl_plain env_qs)
              "a=1&b=2&a=3" eq_refl) as [kv [E [_ [_ G]]]].
  exists kv. rewrite !G. split; [exact E|]. split; reflexivity.
Defined.

(** The JSON body [[]]: parsed once, then [None]. *)
Lemma falsy_json_witness :
  Req.run_accesses decode_ascii parse_qsl_plain json_loads_subset not_multipart
    [Req.AJson; Req.AJson] rq_json_falsy
  = ([Ok (Some (PList [])); Ok None], Req.set_form (Req.set_input rq_json_falsy []) (PList [])).
Proof.
  apply (ReqMoreFacts.falsy_json_not_cached decode_ascii parse_qsl_plain json_loads_subset
           not_multipart rq_json_falsy (Req.set_input rq_json_falsy []) (bytes "[]") (PList []));
    [reflexivity | reflexivity | reflexivity | vm_compute; discriminate | reflexivity
    | reflexivity | reflexivity].
Defined.

(** A [GET] with a JSON body. *)
Lemma bodyless_json_witness :
  Req.json decode_ascii json_loads_subset rq_get_json = (Ok None, rq_get_json).
Proof.
  apply (ReqMoreFacts.bodyless_method_json_none decode_ascii json_loads_subset rq_get_json);
    reflexivity.
Defined.

(** Fields [a=1], [b=2], [a=3] among two files: [a] holds [3], the files
    are not fields. *)
Lemma multipart_form_witness :
  exists kv,
    Req._parse_multipart_form decode_ascii (parts_parser mp_parts) rq_mp
    = (Ok (Some (PDict kv)), Req.set_form (Req.set_input rq_mp []) (PDict kv))
    /\ ReqMore.assoc_get kv "a" = Some (PStr "3")
    /\ ReqMore.assoc_get kv "b" = Some (PStr "2")
    /\ ReqMore.assoc_get kv "doc" = None.
Proof.
  destruct (ReqMoreFacts.multipart_form_last_field_wins decode_ascii (parts_parser mp_parts)
              rq_mp (Req.set_input rq_mp []) mp_parts eq_refl eq_refl eq_refl)
    as [kv [E [_ [_ G]]]].
  exists kv. rewrite E, !G. repeat split; reflexivity.
Defined.

(** The field [c] with payload [b'\xff'] after [a=1] and a file: [a]
    stays stored, and later reads return it. *)
Lemma multipart_decode_error_witness :
  exists kv,
    Req._parse_multipart_form decode_ascii
      (parts_parser [field "a" "1"; file_part "doc" "a.txt" "AAA"; bad_field; field "b" "2"])
      rq_mp
    = (Raise (EOther "UnicodeDecodeError" "invalid utf-8"),
       Req.set_form (Req.set_input rq_mp []) (PDict kv))
    /\ ReqMore.assoc_get kv "a" = Some (PStr "1")
    /\ ReqMore.assoc_get kv "b" = None
    /\ Req.run_accesses decode_ascii parse_qsl_plain json_loads_subset
         (parts_parser [field "a" "1"; file_part "doc" "a.txt" "AAA"; bad_field; field "b" "2"])
         [Req.AForm; Req.AJson] (Req.set_form (Req.set_input rq_mp []) (PDict kv))
       = ([Ok (Some (PDict kv)); Ok (Some (PDict kv))],
          Req.set_form (Req.set_input rq_mp []) (PDict kv)).
Proof.
  destruct (ReqMoreFacts.multipart_decode_error_keeps_fields decode_ascii parse_qsl_plain
              json_loads_subset
              (parts_parser [field "a" "1"; file_part "doc" "a.txt" "AAA"; bad_field; field "b" "2"])
              rq_mp (Req.set_input rq_mp []) [field "a" "1"; file_part "doc" "a.txt" "AAA"]
              bad_field [field "b" "2"] [Byte.xff]
              eq_refl eq_refl eq_refl eq_refl eq_refl eq_refl) as [kv [E [G L]]].
  exists kv. rewrite !G. split; [exact E|]. split; [reflexivity|]. split; [reflexivity|].
  apply (L ltac:(vm_compute; discriminate) [Req.AForm; Req.AJson]).
Defined.

(** Two files named [doc]: two temporary files, and [doc] describes the
    second. *)
Lemma files_witness :
  exists files fs,
    ReqMore._parse_multipart_files (parts_parser mp_parts) octet_stream tmp_path fr_mp
    = (Ok (Some files), ReqMore.mkFilesRequest (Req.set_input rq_mp []) files fs)
    /\ fs = [(tmp_path 0, bytes "AAA"); (tmp_path 1, bytes "BBB")]
    /\ ReqMore.assoc_get files "a" = None
    /\ exists uf, ReqMore.assoc_get files "doc" = Some uf
         /\ ReqMore.uf_filename uf = "b.txt"
         /\ ReqMore.uf_content_type uf = "application/octet-stream"
         /\ In (ReqMore.uf_filepath uf, bytes "BBB") fs.
Proof.
  destruct (ReqMoreFacts.files_one_temp_file_per_file_part (parts_parser mp_parts) octet_stream
              tmp_path fr_mp (Req.set_input rq_mp []) mp_parts eq_refl eq_refl)
    as [files [fs [E [F [_ P]]]]].
  exists files, fs. split; [exact E|]. split; [rewrite F; reflexivity|].
  split; [exact (P "a")|].
  destruct (P "doc") as [uf Huf]. exists uf. exact Huf.
Defined.

(** The multipart request with fields and files: read alone, [form] and
    [files] each find something; read after the other, each returns
    [None], the body being consumed. *)
Lemma form_files_exclusive_witness :
  fst (Req.form decode_ascii parse_qsl_plain (parts_parser mp_parts) rq_mp) <> Ok None
  /\ fst (ReqMore._parse_multipart_files (parts_parser mp_parts) octet_stream tmp_path fr_mp)
     <> Ok None
  /\ ReqMore._parse_multipart_files (parts_parser mp_parts) octet_stream tmp_path
       (ReqMore.mkFilesRequest
          (snd (Req.form decode_ascii parse_qsl_plain (parts_parser mp_parts) rq_mp)) [] [])
     = (Ok None, ReqMore.mkFilesRequest
          (snd (Req.form decode_ascii parse_qsl_plain (parts_parser mp_parts) rq_mp)) [] [])
  /\ Req.form decode_ascii parse_qsl_plain (parts_parser mp_parts)
       (ReqMore.freq (snd (ReqMore._parse_multipart_files (parts_parser mp_parts) octet_stream
                             tmp_path fr_mp)))
     = (Ok None,
        ReqMore.freq (snd (ReqMore._parse_multipart_files (parts_parser mp_parts) octet_stream
                             tmp_path fr_mp))).
Proof.
  pose proof (ReqMoreFacts.multipart_form_and_files_exclusive decode_ascii parse_qsl_plain
                (parts_parser mp_parts) octet_stream tmp_path rq_mp (Req.set_input rq_mp [])
                (bytes "0123456789") [] eq_refl eq_refl eq_refl eq_refl eq_refl) as [A B].
  split; [vm_compute; discriminate|]. split; [vm_compute; discriminate|]. split.
  - apply (A (fst (Req.form decode_ascii parse_qsl_plain (parts_parser mp_parts) rq_mp))).
    apply surjective_pairing.
  - apply (B (fst (ReqMore._parse_multipart_files (parts_parser mp_parts) octet_stream
                     tmp_path fr_mp))).
    apply surjective_pairing.
Defined.

(** [files] on a non-multipart body consumes it: [json] then sees no body. *)
Lemma files_consumes_body_witness :
  ReqMore._parse_multipart_files not_multipart octet_stream tmp_path
    (ReqMore.mkFilesRequest rq_json_falsy [] [])
  = (Ok None, ReqMore.mkFilesRequest (Req.set_input rq_json_falsy []) [] [])
  /\ Req.json decode_ascii json_loads_subset (Req.set_input rq_json_falsy [])
     = (Ok None, Req.set_input rq_json_falsy []).
Proof.
  apply (ReqMoreFacts.files_consumes_body decode_ascii json_loads_subset not_multipart
           octet_stream tmp_path (ReqMore.mkFilesRequest rq_json_falsy [] [])
           (Req.set_input rq_json_falsy []) (bytes "[]"));
    reflexivity.
Defined.

(** Scheme [HTTPß] and host [Éx] give the origin [httpss://éx]. *)
Lemma origin_witness :
  ReqMore.origin env_latin1
  = ReqMore.code_points ("httpss://" ++ String (ascii_of_nat 233) "x").
Proof.
  rewrite (proj1 (ReqMoreFacts.origin_lowercases env_latin1)). vm_compute. reflexivity.
Defined.

(** [wsgi.url_scheme = 'HttpS'] is secure. *)
Lemma secure_witness : ReqMore.secure env_https = true.
Proof. apply (proj2 (ReqMoreFacts.secure_iff_https env_https)). reflexivity. Defined.

(** [text/plain; charset=utf-8] has a charset. *)
Lemma charset_witness : ReqMore.charset env_ct <> None.
Proof.
  intros H. apply (proj1 (ReqMoreFacts.charset_none_iff env_ct)) in H. discriminate H.
Defined.

End ExtraChecks.
